(** * The Clear Linux provisioner of libmachine

    A shallow embedding of [libmachine/provision/clearlinux.go]: the
    package-action translation ([Package]), the engine configuration renderer
    ([GenerateDockerOptions]) and the provisioning sequence ([Provision]),
    together with the parts of Go's [fmt], [strconv] and [text/template]
    that these functions run through.  The calls to the logger have no
    effect on what the functions return or do to the host and are left
    out. *)

From Stdlib Require Import String Ascii List ZArith Lia Bool Arith.
From Stdlib Require Import DecimalString DecimalZ DecimalPos DecimalFacts.
Import ListNotations.

Local Open Scope list_scope.
Local Open Scope string_scope.

Set Implicit Arguments.
Set Warnings "-register-all".

(** ** Go values *)

(** A Go [error] is identified with its message; [nil] is [None] where a
    function returns only an error. *)
Definition error := string.

Inductive result (A : Type) : Type :=
| Ok (a : A)
| Err (e : error).
Arguments Ok {A} a.
Arguments Err {A} e.

Definition outcome {A} (r : result A) : option error :=
  match r with Ok _ => None | Err e => Some e end.

(** The double quote and the line feed, which the string notation cannot
    hold directly. *)
Definition dq : string := String (ascii_of_nat 34) EmptyString.
Definition nl : string := String (ascii_of_nat 10) EmptyString.

(** [strings.HasPrefix] and [strings.Contains]. *)
Fixpoint HasPrefix (s prefix : string) : bool :=
  match prefix, s with
  | EmptyString, _ => true
  | String _ _, EmptyString => false
  | String a prefix', String b s' => Ascii.eqb a b && HasPrefix s' prefix'
  end.

Fixpoint contains (s substr : string) : bool :=
  HasPrefix s substr ||
  match s with
  | EmptyString => false
  | String _ s' => contains s' substr
  end.

(** *** fmt.Sprintf

    The verbs this file uses in Go code: [%s] on string operands, and [%%].
    A missing operand prints as [%!s(MISSING)]; operands left over are
    reported at the end, as [fmt] does. *)
Definition extraOperands (args : list string) : string :=
  match args with
  | [] => ""
  | _ => "%!(EXTRA " ++ String.concat ", " (map (fun a => "string=" ++ a) args) ++ ")"
  end.

Fixpoint Sprintf (format : string) (args : list string) : string :=
  match format with
  | EmptyString => extraOperands args
  | String "%" (String "s" rest) =>
      match args with
      | a :: args' => a ++ Sprintf rest args'
      | [] => "%!s(MISSING)" ++ Sprintf rest []
      end
  | String "%" (String "%" rest) => String "%" (Sprintf rest args)
  | String ch rest => String ch (Sprintf rest args)
  end.

(** ** Data model *)

(** [pkgaction.PackageAction]. *)
Module pkgaction.
Inductive PackageAction := Install | Remove | Upgrade | Purge.
End pkgaction.

(** [serviceaction.ServiceAction]. *)
Module serviceaction.
Inductive ServiceAction := Restart | Start | Stop | Enable | Disable | DaemonReload.
End serviceaction.

(** [auth.Options]: the remote paths the engine configuration refers to. *)
Module auth.
Record Options := {
    CaCertRemotePath : string;
    ServerCertRemotePath : string;
    ServerKeyRemotePath : string;
  }.
End auth.

(** [engine.Options]: the lists the engine configuration iterates. *)
Module engine.
Record Options := {
    ArbitraryFlags : list string;
    Env : list string;
    InsecureRegistry : list string;
    Labels : list string;
    RegistryMirror : list string;
  }.

Definition withLabels (o : Options) (ls : list string) : Options :=
    {| ArbitraryFlags := ArbitraryFlags o;
       Env := Env o;
       InsecureRegistry := InsecureRegistry o;
       Labels := ls;
       RegistryMirror := RegistryMirror o |}.
End engine.

(** [drivers.Driver], as far as the provisioner consults it. *)
Module drivers.
Record Driver := {
    DriverName : string;
    GetMachineName : string;
  }.
End drivers.

(** [DockerOptions]: the rendered text and the remote path it belongs at. *)
Module DockerOptions.
Record t := {
    EngineOptions : string;
    EngineOptionsPath : string;
  }.
End DockerOptions.

(** ** Go's standard library, as far as the renderer runs through it *)

(** *** strconv.FormatInt, base 10: how [fmt] prints an [int]. *)
Definition FormatInt (z : Z) : string :=
  NilZero.string_of_int (Z.to_int z).

Module utf8.
Definition RuneError : N := 0xFFFD.
Definition RuneSelf : N := 0x80.
Definition MaxRune : N := 0x10FFFF.

Definition byte (c : ascii) : N := N_of_ascii c.
Definition chr (n : N) : ascii := ascii_of_N n.

(** A continuation byte read within the bounds [lo..hi]. *)
Definition within (lo hi : N) (b : N) : bool := (lo <=? b)%N && (b <=? hi)%N.

(** The table [first] and [acceptRanges] of package utf8, by lead byte:
    the size of the sequence and the bounds on its second byte; [None] for
    a byte that cannot start a sequence. *)
Definition lead (s0 : N) : option (nat * N * N) :=
  if within 0xC2 0xDF s0 then Some (2%nat, 0x80, 0xBF)%N
  else if (s0 =? 0xE0)%N then Some (3%nat, 0xA0, 0xBF)%N
  else if within 0xE1 0xEC s0 then Some (3%nat, 0x80, 0xBF)%N
  else if (s0 =? 0xED)%N then Some (3%nat, 0x80, 0x9F)%N
  else if within 0xEE 0xEF s0 then Some (3%nat, 0x80, 0xBF)%N
  else if (s0 =? 0xF0)%N then Some (4%nat, 0x90, 0xBF)%N
  else if within 0xF1 0xF3 s0 then Some (4%nat, 0x80, 0xBF)%N
  else if (s0 =? 0xF4)%N then Some (4%nat, 0x80, 0x8F)%N
  else None.

Definition cont (b : N) : N := N.land b 0x3F.

(** [utf8.DecodeRuneInString] on the non-empty string [String c0 rest]:
    the rune and the number of bytes it takes. *)
Definition DecodeRuneInString (c0 : ascii) (rest : string) : N * nat :=
  let s0 := byte c0 in
  if (s0 <? RuneSelf)%N then (s0, 1%nat)
  else
    match lead s0 with
    | None => (RuneError, 1%nat)
    | Some (sz, lo, hi) =>
        if (String.length rest <? sz - 1)%nat then (RuneError, 1%nat)
        else
          match rest with
          | EmptyString => (RuneError, 1%nat)
          | String c1 rest1 =>
              let s1 := byte c1 in
              if negb (within lo hi s1) then (RuneError, 1%nat)
              else if (sz <=? 2)%nat then
                (N.lor (N.shiftl (N.land s0 0x1F) 6) (cont s1), 2%nat)
              else
                match rest1 with
                | EmptyString => (RuneError, 1%nat)
                | String c2 rest2 =>
                    let s2 := byte c2 in
                    if negb (within 0x80 0xBF s2) then (RuneError, 1%nat)
                    else if (sz <=? 3)%nat then
                      (N.lor (N.shiftl (N.land s0 0x0F) 12)
                         (N.lor (N.shiftl (cont s1) 6) (cont s2)), 3%nat)
                    else
                      match rest2 with
                      | EmptyString => (RuneError, 1%nat)
                      | String c3 _ =>
                          let s3 := byte c3 in
                          if negb (within 0x80 0xBF s3) then (RuneError, 1%nat)
                          else
                            (N.lor (N.shiftl (N.land s0 0x07) 18)
                               (N.lor (N.shiftl (cont s1) 12)
                                  (N.lor (N.shiftl (cont s2) 6) (cont s3))), 4%nat)
                      end
                end
          end
    end.

Definition ValidRune (r : N) : bool :=
  (r <? 0xD800)%N || ((0xDFFF <? r)%N && (r <=? MaxRune)%N).

Definition tail6 (r : N) (shift : N) : ascii :=
  chr (N.lor 0x80 (N.land (N.shiftr r shift) 0x3F)).

(** [utf8.AppendRune] onto an empty buffer. *)
Definition EncodeRune (r : N) : string :=
    if (r <=? 0x7F)%N then String (chr r) ""
    else if (r <=? 0x7FF)%N then
      String (chr (N.lor 0xC0 (N.shiftr r 6))) (String (tail6 r 0) "")
    else
      let r := if ValidRune r then r else RuneError in
      if (r <=? 0xFFFF)%N then
        String (chr (N.lor 0xE0 (N.shiftr r 12)))
          (String (tail6 r 6) (String (tail6 r 0) ""))
      else
        String (chr (N.lor 0xF0 (N.shiftr r 18)))
          (String (tail6 r 12) (String (tail6 r 6) (String (tail6 r 0) ""))).
End utf8.

Module strconv.
Section Quote.
(** The tables behind [strconv.IsPrint] above Latin-1, which belong to
    the Unicode version Go was built with. *)
Variable isPrintTable : N -> bool.

Definition IsPrint (r : N) : bool :=
  if (r <=? 0xFF)%N then
    if (0x20 <=? r)%N && (r <=? 0x7E)%N then true
    else if (0xA1 <=? r)%N && (r <=? 0xFF)%N then negb (r =? 0xAD)%N
    else false
  else isPrintTable r.

Definition lowerhex (n : N) : ascii :=
  match get (N.to_nat n) "0123456789abcdef" with
  | Some c => c
  | None => "0"%char
  end.

Definition hexDigit (r : N) (shift : N) : string :=
  String (lowerhex (N.land (N.shiftr r shift) 0xF)) "".

(** [appendEscapedRune] for the double quote, with [ASCIIonly] and
    [graphicOnly] false. *)
Definition escapedRune (r : N) : string :=
  if (r =? 34)%N || (r =? 92)%N then String "\" (String (utf8.chr r) "")
  else if IsPrint r then utf8.EncodeRune r
  else if (r =? 7)%N then "\a"
  else if (r =? 8)%N then "\b"
  else if (r =? 12)%N then "\f"
  else if (r =? 10)%N then "\n"
  else if (r =? 13)%N then "\r"
  else if (r =? 9)%N then "\t"
  else if (r =? 11)%N then "\v"
  else if (r <? 32)%N || (r =? 0x7F)%N then
    "\x" ++ hexDigit r 4 ++ hexDigit r 0
  else
    let r := if utf8.ValidRune r then r else utf8.RuneError in
    if (r <? 0x10000)%N then
      "\u" ++ hexDigit r 12 ++ hexDigit r 8 ++ hexDigit r 4 ++ hexDigit r 0
    else
      "\U" ++ hexDigit r 28 ++ hexDigit r 24 ++ hexDigit r 20 ++ hexDigit r 16
           ++ hexDigit r 12 ++ hexDigit r 8 ++ hexDigit r 4 ++ hexDigit r 0.

(** The loop of [appendQuotedWith]; [skip] counts the bytes of the
    current rune still to be passed over. *)
Fixpoint quoted (skip : nat) (s : string) : string :=
  match s with
  | EmptyString => ""
  | String c rest =>
      match skip with
      | S k => quoted k rest
      | O =>
          let '(r, width) := utf8.DecodeRuneInString c rest in
          (if (width =? 1)%nat && (r =? utf8.RuneError)%N
           then "\x" ++ hexDigit (utf8.byte c) 4 ++ hexDigit (utf8.byte c) 0
           else escapedRune r)
          ++ quoted (width - 1) rest
      end
  end.

(** [strconv.Quote], which is what the verb [%q] prints for a string. *)
Definition Quote (s : string) : string := dq ++ quoted 0 s ++ dq.
End Quote.
End strconv.

(** *** text/template

    The fragment of the template language that the engine configuration
    template is written in: text, field chains [{{.A.B}}], the cursor
    [{{.}}], [{{range pipeline}} ... {{end}}] and [{{printf format .}}].
    Any other action is answered with a parse error. *)
Module template.
(** The data a template is executed on, as reflection sees it. *)
Inductive Value :=
  | VInt (z : Z)
  | VString (s : string)
  | VSlice (vs : list Value)
  | VStruct (fields : list (string * Value)).

Inductive Node :=
  | TextNode (text : string)
  | FieldNode (chain : list string)
  | PrintfNode (format : string) (chain : list string)
  | RangeNode (chain : list string) (body : list Node).

Definition Template := list Node.

(** **** Lexing: text and the actions between the delimiters *)
Inductive item :=
  | itemText (s : string)
  | itemAction (s : string).

(** [acc] holds, reversed, what has been read of the current item;
    [inAction] tells whether a left delimiter is open. *)
Fixpoint lex (inAction : bool) (acc : list ascii) (s : string)
  : result (list item) :=
  let flush := string_of_list_ascii (rev acc) in
  match s with
  | EmptyString =>
      if inAction then Err "template: engineConfig: unclosed action"
      else Ok (match acc with [] => [] | _ => [itemText flush] end)
  | String "{" (String "{" rest) =>
      if inAction then Err "template: engineConfig: unexpected left delim in action"
      else
        match lex true [] rest with
        | Ok items => Ok (match acc with [] => items | _ => itemText flush :: items end)
        | Err e => Err e
        end
  | String "}" (String "}" rest) =>
      if inAction then
        match lex false [] rest with
        | Ok items => Ok (itemAction flush :: items)
        | Err e => Err e
        end
      else lex false ("}"%char :: "}"%char :: acc) rest
  | String c rest => lex inAction (c :: acc) rest
  end.

(** **** Parsing actions *)
Fixpoint splitOn (sep : ascii) (acc : list ascii) (s : string) : list string :=
  match s with
  | EmptyString => [string_of_list_ascii (rev acc)]
  | String c rest =>
      if Ascii.eqb c sep then string_of_list_ascii (rev acc) :: splitOn sep [] rest
      else splitOn sep (c :: acc) rest
  end.

Definition nonEmpty (s : string) : bool :=
  match s with EmptyString => false | _ => true end.

Definition words (s : string) : list string :=
  filter nonEmpty (splitOn " " [] s).

(** A field chain [.A.B.C]; the lone dot is the empty chain. *)
Definition parseChain (w : string) : option (list string) :=
  match w with
  | String "." EmptyString => Some []
  | String "." rest =>
      let names := splitOn "." [] rest in
      if forallb nonEmpty names then Some names else None
  | _ => None
  end.

(** A string constant between double quotes, without escapes. *)
Definition parseStringConstant (w : string) : option string :=
  match w with
  | String q rest =>
      if Ascii.eqb q (ascii_of_nat 34) then
        match rev (list_ascii_of_string rest) with
        | q' :: body =>
            if Ascii.eqb q' (ascii_of_nat 34)
            then Some (string_of_list_ascii (rev body))
            else None
        | [] => None
        end
      else None
  | EmptyString => None
  end.

Inductive action :=
  | actField (chain : list string)
  | actPrintf (format : string) (chain : list string)
  | actRange (chain : list string)
  | actEnd.

Definition parseAction (s : string) : result action :=
  match words s with
  | [w] =>
      if String.eqb w "end" then Ok actEnd
      else match parseChain w with
           | Some chain => Ok (actField chain)
           | None => Err ("template: engineConfig: unexpected " ++ w ++ " in command")
           end
  | [kw; w] =>
      if String.eqb kw "range" then
        match parseChain w with
        | Some chain => Ok (actRange chain)
        | None => Err ("template: engineConfig: unexpected " ++ w ++ " in range")
        end
      else Err ("template: engineConfig: function " ++ kw ++ " not defined")
  | [kw; f; w] =>
      if String.eqb kw "printf" then
        match parseStringConstant f, parseChain w with
        | Some format, Some chain => Ok (actPrintf format chain)
        | _, _ => Err "template: engineConfig: unexpected operand in printf"
        end
      else Err ("template: engineConfig: function " ++ kw ++ " not defined")
  | [] => Err "template: engineConfig: missing value for command"
  | kw :: _ => Err ("template: engineConfig: function " ++ kw ++ " not defined")
  end.

(** **** Building the tree: [open] stacks the ranges still to be closed,
    each with the nodes that came before it. *)
Fixpoint build (items : list item) (open : list (list string * list Node))
  (acc : list Node) : result Template :=
  match items with
  | [] =>
      match open with
      | [] => Ok acc
      | _ :: _ => Err "template: engineConfig: unexpected EOF"
      end
  | itemText s :: items' => build items' open (acc ++ [TextNode s])%list
  | itemAction s :: items' =>
      match parseAction s with
      | Err e => Err e
      | Ok (actField chain) => build items' open (acc ++ [FieldNode chain])%list
      | Ok (actPrintf f chain) => build items' open (acc ++ [PrintfNode f chain])%list
      | Ok (actRange chain) => build items' ((chain, acc) :: open) []
      | Ok actEnd =>
          match open with
          | [] => Err "template: engineConfig: unexpected {{end}}"
          | (chain, before) :: open' =>
              build items' open' (before ++ [RangeNode chain acc])%list
          end
      end
  end.

(** [template.New(name).Parse(text)]. *)
Definition Parse (text : string) : result Template :=
  match lex false [] text with
  | Err e => Err e
  | Ok items => build items [] []
  end.

(** **** Execution *)

(** What has been written to the buffer, and the error that stopped the
    execution, if any: text written before an error stays written. *)
Definition written := (string * option error)%type.

(** Run [f] on the elements of [l] from left to right until one fails. *)
Definition inOrder {A} (f : A -> written) : list A -> written :=
  fix go (l : list A) : written :=
    match l with
    | [] => ("", None)
    | x :: l' =>
        match f x with
        | (out, Some e) => (out, Some e)
        | (out, None) => let '(out', e) := go l' in (out ++ out', e)
        end
    end.

Fixpoint lookup (name : string) (fields : list (string * Value)) : option Value :=
  match fields with
  | [] => None
  | (n, v) :: fields' => if String.eqb n name then Some v else lookup name fields'
  end.

Fixpoint evalChain (dot : Value) (chain : list string) : result Value :=
  match chain with
  | [] => Ok dot
  | name :: chain' =>
      match dot with
      | VStruct fields =>
          match lookup name fields with
          | Some v => evalChain v chain'
          | None => Err ("template: engineConfig: can't evaluate field " ++ name)
          end
      | _ => Err ("template: engineConfig: can't evaluate field " ++ name)
      end
  end.

(** How [fmt.Fprint] shows a value. *)
Fixpoint printValue (v : Value) : string :=
  match v with
  | VInt z => FormatInt z
  | VString s => s
  | VSlice vs => "[" ++ String.concat " " (map printValue vs) ++ "]"
  | VStruct fields => "{" ++ String.concat " " (map (fun f => printValue (snd f)) fields) ++ "}"
  end.

Section Exec.
Variable isPrintTable : N -> bool.

(** [printf]: the verb [%q] on a string operand. *)
Definition printf (format : string) (v : Value) : written :=
  match v with
  | VString s =>
      if String.eqb format "%q" then (strconv.Quote isPrintTable s, None)
      else (Sprintf format [s], None)
  | _ => ("", Some "template: engineConfig: printf operand is not a string")
  end.

Fixpoint execNode (dot : Value) (n : Node) {struct n} : written :=
  match n with
  | TextNode text => (text, None)
  | FieldNode chain =>
      match evalChain dot chain with
      | Ok v => (printValue v, None)
      | Err e => ("", Some e)
      end
  | PrintfNode format chain =>
      match evalChain dot chain with
      | Ok v => printf format v
      | Err e => ("", Some e)
      end
  | RangeNode chain body =>
      match evalChain dot chain with
      | Ok (VSlice vs) => inOrder (fun elem => inOrder (execNode elem) body) vs
      | Ok _ => ("", Some "template: engineConfig: range can't iterate over value")
      | Err e => ("", Some e)
      end
  end.

(** [t.Execute(&buf, data)]: the content of the buffer afterwards, and
    the error returned. *)
Definition Execute (t : Template) (data : Value) : written :=
      inOrder (execNode data) t.
End Exec.
End template.

(** ** The provisioner *)

(** The provisioner carries the fields of the embedded [GenericProvisioner]
    that this file reads or writes.  [swarm.Options] is opaque here. *)
Section ProvisionerState.
Variable swarm_Options : Type.

Record Provisioner := {
    Driver : drivers.Driver;
    DaemonOptionsFile : string;
    AuthOptions : auth.Options;
    EngineOptions : engine.Options;
    SwarmOptions : swarm_Options;
  }.

Definition withSwarmOptions (p : Provisioner) (o : swarm_Options) : Provisioner :=
  {| Driver := Driver p; DaemonOptionsFile := DaemonOptionsFile p;
     AuthOptions := AuthOptions p; EngineOptions := EngineOptions p;
     SwarmOptions := o |}.

Definition withAuthOptions (p : Provisioner) (o : auth.Options) : Provisioner :=
  {| Driver := Driver p; DaemonOptionsFile := DaemonOptionsFile p;
     AuthOptions := o; EngineOptions := EngineOptions p;
     SwarmOptions := SwarmOptions p |}.

Definition withEngineOptions (p : Provisioner) (o : engine.Options) : Provisioner :=
    {| Driver := Driver p; DaemonOptionsFile := DaemonOptionsFile p;
       AuthOptions := AuthOptions p; EngineOptions := o;
       SwarmOptions := SwarmOptions p |}.
End ProvisionerState.

Arguments Driver {swarm_Options} _.
Arguments DaemonOptionsFile {swarm_Options} _.
Arguments AuthOptions {swarm_Options} _.
Arguments EngineOptions {swarm_Options} _.
Arguments SwarmOptions {swarm_Options} _.

(** [EngineConfigContext], and the value reflection shows the template. *)
Module EngineConfigContext.
Record t := {
    DockerPort : Z;
    AuthOptions : auth.Options;
    EngineOptions : engine.Options;
  }.

Definition strings (l : list string) : template.Value :=
  template.VSlice (map template.VString l).

Definition reflect (c : t) : template.Value :=
    template.VStruct
      [ ("DockerPort", template.VInt (DockerPort c));
        ("AuthOptions", template.VStruct
           [ ("CaCertRemotePath", template.VString (auth.CaCertRemotePath (AuthOptions c)));
             ("ServerCertRemotePath", template.VString (auth.ServerCertRemotePath (AuthOptions c)));
             ("ServerKeyRemotePath", template.VString (auth.ServerKeyRemotePath (AuthOptions c))) ]);
        ("EngineOptions", template.VStruct
           [ ("ArbitraryFlags", strings (engine.ArbitraryFlags (EngineOptions c)));
             ("Env", strings (engine.Env (EngineOptions c)));
             ("InsecureRegistry", strings (engine.InsecureRegistry (EngineOptions c)));
             ("Labels", strings (engine.Labels (EngineOptions c)));
             ("RegistryMirror", strings (engine.RegistryMirror (EngineOptions c))) ]) ].
End EngineConfigContext.

(** *** What the file calls and does not define

    [Host] is the remote machine together with everything else outside the
    process.  Functions that are handed the provisioner as an [SSHCommander]
    can only run commands, so they act on the host alone; those that are
    handed it as a [Provisioner] may also change its fields. *)
Section Externals.
Variables (Host swarm_Options : Type).

Definition St : Type := (Provisioner swarm_Options * Host)%type.

Record Externals := {
    (** the tables of [strconv.IsPrint] above Latin-1 *)
    isPrintTable : N -> bool;
    (** [versioncmp.GreaterThanOrEqualTo] *)
    GreaterThanOrEqualTo : string -> string -> bool;
    (** [provisioner.SSHCommand] *)
    SSHCommand : string -> Host -> result string * Host;
    DockerClientVersion : Host -> result string * Host;
    waitForLock : string -> Host -> option error * Host;
    makeDockerOptionsDir : St -> option error * St;
    setRemoteAuthOptions : St -> auth.Options * St;
    ConfigureAuth : St -> option error * St;
    configureSwarm : swarm_Options -> auth.Options -> St -> option error * St;
    (** [provisioner.Service], of the embedded [SystemdProvisioner] *)
    Service : string -> serviceaction.ServiceAction -> St -> option error * St;
  }.

(** *** Sequencing

      A function of the file is a state transformer over the provisioner
      and the host. *)
Definition M (A : Type) : Type := St -> A * St.

Definition ret {A} (a : A) : M A := fun st => (a, st).

Definition bind {A B} (m : M A) (k : A -> M B) : M B :=
  fun st => let '(a, st') := m st in k a st'.

(** [if err := m; err != nil { return err }]. *)
Definition orReturn (m : M (option error)) (k : M (option error)) : M (option error) :=
  fun st =>
    let '(err, st') := m st in
    match err with
    | Some e => (Some e, st')
    | None => k st'
    end.

Definition onHost {A} (f : Host -> A * Host) : M A :=
  fun st => let '(a, h) := f (snd st) in (a, (fst st, h)).

Definition provisioner : M (Provisioner swarm_Options) :=
  fun st => (fst st, st).

Definition assign (f : Provisioner swarm_Options -> Provisioner swarm_Options) : M unit :=
    fun st => (tt, (f (fst st), snd st)).
End Externals.

Arguments ret {Host swarm_Options A} a.
Arguments provisioner {Host swarm_Options}.
Arguments assign {Host swarm_Options} f.
Arguments onHost {Host swarm_Options A} f.

Declare Scope go_scope.
Delimit Scope go_scope with go.
Notation "x <- m ;; k" := (bind m (fun x => k))
  (at level 61, m at next level, right associativity) : go_scope.
Notation "m ;; k" := (bind m (fun _ => k))
  (at level 61, right associativity) : go_scope.
Notation "'check' m ;; k" := (orReturn m k)
  (at level 61, m at next level, right associativity) : go_scope.

(** The template of [GenerateDockerOptions], with [arg] spliced in. *)
Definition engineConfigTmpl (arg : string) : string :=
  "[Service]" ++ nl ++
  "Environment=TMPDIR=/var/tmp" ++ nl ++
  "ExecStart=" ++ nl ++
  "ExecStart=/usr/bin/dockerd " ++ arg ++ " --host=unix:///var/run/docker.sock --host=tcp://0.0.0.0:{{.DockerPort}} --tlsverify --tlscacert {{.AuthOptions.CaCertRemotePath}} --tlscert {{.AuthOptions.ServerCertRemotePath}} --tlskey {{.AuthOptions.ServerKeyRemotePath}}{{ range .EngineOptions.Labels }} --label {{.}}{{ end }}{{ range .EngineOptions.InsecureRegistry }} --insecure-registry {{.}}{{ end }}{{ range .EngineOptions.RegistryMirror }} --registry-mirror {{.}}{{ end }}{{ range .EngineOptions.ArbitraryFlags }} --{{.}}{{ end }} \$DOCKER_OPTS \$DOCKER_OPT_BIP \$DOCKER_OPT_MTU \$DOCKER_OPT_IPMASQ" ++ nl ++
  "Environment={{range .EngineOptions.Env}}{{ printf " ++ dq ++ "%q" ++ dq ++ " . }} {{end}}" ++ nl.

Section ClearLinux.
Variables (Host swarm_Options : Type).
Variable ext : Externals Host swarm_Options.

Local Open Scope go_scope.
Local Abbreviation M := (M Host swarm_Options).

Definition SetHostname (hostname : string) : M (option error) :=
  let command := Sprintf "sudo hostnamectl set-hostname %s" [hostname] in
  r <- onHost (SSHCommand ext command) ;;
  match r with
  | Err err => ret (Some err)
  | Ok _ => ret None
  end.

Definition GenerateDockerOptions (dockerPort : Z) : M (result DockerOptions.t) :=
  p <- provisioner ;;
  let driverNameLabel := Sprintf "provider=%s" [drivers.DriverName (Driver p)] in
  assign (fun p => withEngineOptions p
            (engine.withLabels (EngineOptions p)
               (engine.Labels (EngineOptions p) ++ [driverNameLabel])%list)) ;;
  v <- onHost (DockerClientVersion ext) ;;
  match v with
  | Err err => ret (Err err)
  | Ok dockerVersion =>
      let arg := if GreaterThanOrEqualTo ext dockerVersion "1.12.0" then "" else "daemon" in
      match template.Parse (engineConfigTmpl arg) with
      | Err err => ret (Err err)
      | Ok t =>
          p <- provisioner ;;
          let engineConfigContext :=
            {| EngineConfigContext.DockerPort := dockerPort;
               EngineConfigContext.AuthOptions := AuthOptions p;
               EngineConfigContext.EngineOptions := EngineOptions p |} in
          (* the error of Execute is dropped *)
          let engineCfg :=
            fst (template.Execute (isPrintTable ext) t
                   (EngineConfigContext.reflect engineConfigContext)) in
          ret (Ok {| DockerOptions.EngineOptions := engineCfg;
                     DockerOptions.EngineOptionsPath := DaemonOptionsFile p |})
      end
  end.

Definition Package (name : string) (action : pkgaction.PackageAction) : M (option error) :=
  let packageAction :=
    match action with
    | pkgaction.Install | pkgaction.Upgrade => "bundle-add"
    | pkgaction.Remove => ""
    | pkgaction.Purge => "bundle-remove"
    end in
  let name := if String.eqb name "docker" then "containers-basic" else name in
  let command := Sprintf "swupd %s %s " [packageAction; name] in
  onHost (waitForLock ext command).

Definition Provision (swarmOptions : swarm_Options) (authOptions : auth.Options)
    (engineOptions : engine.Options) : M (option error) :=
    assign (fun p => withSwarmOptions p swarmOptions) ;;
    assign (fun p => withAuthOptions p authOptions) ;;
    assign (fun p => withEngineOptions p engineOptions) ;;
    p <- provisioner ;;
    check SetHostname (drivers.GetMachineName (Driver p)) ;;
    check makeDockerOptionsDir ext ;;
    check Package "containers-basic" pkgaction.Install ;;
    remote <- setRemoteAuthOptions ext ;;
    assign (fun p => withAuthOptions p remote) ;;
    check ConfigureAuth ext ;;
    p <- provisioner ;;
    err <- configureSwarm ext swarmOptions (AuthOptions p) ;;
    match err with
    | Some e => ret (Some e)
    | None =>
        err <- Service ext "docker" serviceaction.Enable ;;
        ret err
    end.
End ClearLinux.

(** ** Version comparison *)

(** Modelled from the spec: package [versioncmp] is not in this file; the
    renderer omits the legacy token when the installed version is
    greater-than-or-equal a threshold version.  Versions are read as
    dot-separated decimal components and compared component by component,
    a missing component counting as zero, and so does one that is not a
    decimal number. *)
Module versioncmp.
Definition digit (c : ascii) : option N :=
  let n := N_of_ascii c in
  if (48 <=? n)%N && (n <=? 57)%N then Some (n - 48)%N else None.

Fixpoint atoi (acc : N) (s : string) : option N :=
  match s with
  | EmptyString => Some acc
  | String c rest =>
      match digit c with
      | Some d => atoi (acc * 10 + d)%N rest
      | None => None
      end
  end.

Definition component (s : string) : N :=
  match s with
  | EmptyString => 0%N
  | _ => match atoi 0 s with Some n => n | None => 0%N end
  end.

Definition components (v : string) : list N :=
  map component (template.splitOn "." [] v).

Fixpoint compareNumeric (v1 v2 : list N) : comparison :=
  match v1, v2 with
  | [], _ => if forallb (N.eqb 0) v2 then Eq else Lt
  | x :: v1', [] =>
      match (x ?= 0)%N with Eq => compareNumeric v1' [] | c => c end
  | x :: v1', y :: v2' =>
      match (x ?= y)%N with Eq => compareNumeric v1' v2' | c => c end
  end.

Definition compare (v1 v2 : string) : comparison :=
  compareNumeric (components v1) (components v2).

Definition LessThan (v1 v2 : string) : bool :=
  match compare v1 v2 with Lt => true | _ => false end.

Definition GreaterThanOrEqualTo (v1 v2 : string) : bool :=
  negb (LessThan v1 v2).
End versioncmp.

(** ** Retrying on the package manager's lock *)

(** Modelled from the spec: [waitForLock] is not in this file.  The
    lock-retry executor runs the command through the remote executor; when
    the result carries the signature of a held lock it waits and runs the
    command again, up to a ceiling on the number of attempts, and past the
    ceiling it surfaces the last error; any other error is surfaced at once.
    The signature [lockHeld], the effect [wait] of the bounded wait on the
    host and the [ceiling] are left open. *)
Module LockRetry.
Section LockRetry.
Variable Host : Type.
Variable Execute : string -> Host -> result string * Host.
Variable lockHeld : error -> bool.
Variable wait : Host -> Host.
Variable ceiling : nat.

(** One attempt, with [retries] further attempts allowed after it. *)
Fixpoint attempt (retries : nat) (command : string) (h : Host) : result string * Host :=
  let '(r, h') := Execute command h in
  match r with
  | Ok output => (Ok output, h')
  | Err e =>
      if lockHeld e then
        match retries with
        | S n => attempt n command (wait h')
        | O => (Err e, h')
        end
      else (Err e, h')
  end.

Definition RunWithLockRetry (command : string) (h : Host) : result string * Host :=
  attempt (ceiling - 1) command h.

Definition waitForLock (command : string) (h : Host) : option error * Host :=
  let '(r, h') := RunWithLockRetry command h in (outcome r, h').
End LockRetry.
End LockRetry.

(** The externals [ext], with the lock-retry executor of the spec over
    [ext]'s own remote executor in the place of [waitForLock]. *)
Definition withLockRetry {Host swarm_Options : Type} (lockHeld : error -> bool)
  (wait : Host -> Host) (ceiling : nat) (ext : Externals Host swarm_Options)
  : Externals Host swarm_Options :=
  {| isPrintTable := isPrintTable ext;
     GreaterThanOrEqualTo := GreaterThanOrEqualTo ext;
     SSHCommand := SSHCommand ext;
     DockerClientVersion := DockerClientVersion ext;
     waitForLock := LockRetry.waitForLock (SSHCommand ext) lockHeld wait ceiling;
     makeDockerOptionsDir := makeDockerOptionsDir ext;
     setRemoteAuthOptions := setRemoteAuthOptions ext;
     ConfigureAuth := ConfigureAuth ext;
     configureSwarm := configureSwarm ext;
     Service := Service ext |}.

(** ** Observing the calls

    To state which external calls a function makes, in which order and with
    which operands, the externals are wrapped so that each call is written,
    with the error it returned, to a log kept beside the host.  A call that
    is handed the provisioner is logged with the auth options the
    provisioner holds at that moment ([held]); [setRemoteAuthOptions] is
    logged with the options it returns as well. *)
Section Spy.
Variables (Host swarm_Options : Type).

Inductive Call :=
| CallSSHCommand (command : string)
| CallDockerClientVersion
| CallWaitForLock (command : string)
| CallMakeDockerOptionsDir (held : auth.Options)
| CallSetRemoteAuthOptions (held returned : auth.Options)
| CallConfigureAuth (held : auth.Options)
| CallConfigureSwarm (swarmOptions : swarm_Options) (authOptions : auth.Options)
    (held : auth.Options)
| CallService (name : string) (action : serviceaction.ServiceAction) (held : auth.Options).

Definition Entry : Type := (Call * option error)%type.

Definition Spied : Type := (Host * list Entry)%type.

Definition spyHost {A} (c : Call) (err : A -> option error)
  (f : Host -> A * Host) : Spied -> A * Spied :=
  fun s =>
    let '(a, h) := f (fst s) in
    (a, (h, snd s ++ [(c, err a)])%list).

Definition spySt {A} (c : auth.Options -> A -> Call) (err : A -> option error)
  (f : St Host swarm_Options -> A * St Host swarm_Options)
  : St Spied swarm_Options -> A * St Spied swarm_Options :=
  fun st =>
    let '(a, (p, h)) := f (fst st, fst (snd st)) in
    (a, (p, (h, snd (snd st) ++ [(c (AuthOptions (fst st)) a, err a)])%list)).

Definition spied (ext : Externals Host swarm_Options) : Externals Spied swarm_Options :=
  {| isPrintTable := isPrintTable ext;
     GreaterThanOrEqualTo := GreaterThanOrEqualTo ext;
     SSHCommand := fun command => spyHost (CallSSHCommand command) outcome (SSHCommand ext command);
     DockerClientVersion := spyHost CallDockerClientVersion outcome (DockerClientVersion ext);
     waitForLock := fun command => spyHost (CallWaitForLock command) id (waitForLock ext command);
     makeDockerOptionsDir :=
       spySt (fun held _ => CallMakeDockerOptionsDir held) id (makeDockerOptionsDir ext);
     setRemoteAuthOptions :=
       spySt (fun held returned => CallSetRemoteAuthOptions held returned) (fun _ => None)
         (setRemoteAuthOptions ext);
     ConfigureAuth := spySt (fun held _ => CallConfigureAuth held) id (ConfigureAuth ext);
     configureSwarm := fun swarmOptions authOptions =>
       spySt (fun held _ => CallConfigureSwarm swarmOptions authOptions held) id
         (configureSwarm ext swarmOptions authOptions);
     Service := fun name action =>
       spySt (fun held _ => CallService name action held) id (Service ext name action) |}.

(** The calls logged so far. *)
Definition calls (st : St Spied swarm_Options) : list Entry := snd (snd st).
End Spy.

Arguments CallSSHCommand {swarm_Options} command.
Arguments CallDockerClientVersion {swarm_Options}.
Arguments CallWaitForLock {swarm_Options} command.
Arguments CallMakeDockerOptionsDir {swarm_Options} held.
Arguments CallSetRemoteAuthOptions {swarm_Options} held returned.
Arguments CallConfigureAuth {swarm_Options} held.
Arguments CallService {swarm_Options} name action held.

(** The calls a function makes when run from state [(p, h)] with an empty
    log, each with the error it returned. *)
Definition callsOf {Host swarm_Options A : Type}
  (m : M (Spied Host swarm_Options) swarm_Options A)
  (p : Provisioner swarm_Options) (h : Host) : list (Entry swarm_Options) :=
  calls (snd (m (p, (h, [])))).

(** ** The package-action translator, in the spec's words

    The behaviour table and the name aliasing of the translator, to be
    compared with the command that [Package] builds. *)
Module Translate.
Definition fragment (action : pkgaction.PackageAction) : string :=
  match action with
  | pkgaction.Install => "bundle-add"
  | pkgaction.Upgrade => "bundle-add"
  | pkgaction.Remove => ""
  | pkgaction.Purge => "bundle-remove"
  end.

Definition alias (name : string) : string :=
  if String.eqb name "docker" then "containers-basic" else name.
End Translate.

(** The calls of a full provisioning run, in order.  The options directory
    is made while the provisioner holds the auth options [Provision] was
    given; the options [remote] that [setRemoteAuthOptions] returns are the
    ones the provisioner holds when the auth is configured; the swarm is
    configured with the auth options the provisioner holds then.
    [beforeRewrite], [atSwarm] and [atEnable] stand for what the
    collaborators before have left in the provisioner. *)
Definition provisionCalls {swarm_Options : Type} (machineName : string)
  (swarmOptions : swarm_Options) (authOptions beforeRewrite remote atSwarm atEnable : auth.Options)
  : list (Call swarm_Options) :=
  [ CallSSHCommand ("sudo hostnamectl set-hostname " ++ machineName);
    CallMakeDockerOptionsDir authOptions;
    CallWaitForLock "swupd bundle-add containers-basic ";
    CallSetRemoteAuthOptions beforeRewrite remote;
    CallConfigureAuth remote;
    CallConfigureSwarm swarmOptions atSwarm atSwarm;
    CallService "docker" serviceaction.Enable atEnable ].

(** ** The rendered text, written out *)

Definition joined (l : list string) : string := fold_right append "" l.

(** The tree that [template.Parse] yields for the engine configuration
    template. *)
Definition engineConfigTree (arg : string) : template.Template :=
  [ template.TextNode
      ("[Service]" ++ nl ++ "Environment=TMPDIR=/var/tmp" ++ nl ++ "ExecStart=" ++ nl ++
       "ExecStart=/usr/bin/dockerd " ++ arg ++
       " --host=unix:///var/run/docker.sock --host=tcp://0.0.0.0:");
    template.FieldNode ["DockerPort"];
    template.TextNode " --tlsverify --tlscacert ";
    template.FieldNode ["AuthOptions"; "CaCertRemotePath"];
    template.TextNode " --tlscert ";
    template.FieldNode ["AuthOptions"; "ServerCertRemotePath"];
    template.TextNode " --tlskey ";
    template.FieldNode ["AuthOptions"; "ServerKeyRemotePath"];
    template.RangeNode ["EngineOptions"; "Labels"]
      [template.TextNode " --label "; template.FieldNode []];
    template.RangeNode ["EngineOptions"; "InsecureRegistry"]
      [template.TextNode " --insecure-registry "; template.FieldNode []];
    template.RangeNode ["EngineOptions"; "RegistryMirror"]
      [template.TextNode " --registry-mirror "; template.FieldNode []];
    template.RangeNode ["EngineOptions"; "ArbitraryFlags"]
      [template.TextNode " --"; template.FieldNode []];
    template.TextNode
      (" \$DOCKER_OPTS \$DOCKER_OPT_BIP \$DOCKER_OPT_MTU \$DOCKER_OPT_IPMASQ" ++ nl ++
       "Environment=");
    template.RangeNode ["EngineOptions"; "Env"]
      [template.PrintfNode "%q" []; template.TextNode " "];
    template.TextNode nl ].

(** The start of the unit file up to the port, with the argument [arg]
    that follows the daemon binary. *)
Definition configHead (arg : string) : string :=
  "[Service]" ++ nl ++ "Environment=TMPDIR=/var/tmp" ++ nl ++ "ExecStart=" ++ nl ++
  "ExecStart=/usr/bin/dockerd " ++ arg ++
  " --host=unix:///var/run/docker.sock --host=tcp://0.0.0.0:".

Definition environmentLine (isPrintTable : N -> bool) (env : list string) : string :=
  "Environment=" ++ joined (map (fun v => strconv.Quote isPrintTable v ++ " ") env).

(** The text the engine configuration consists of: every list in the order
    of its elements. *)
Definition expectedConfig (isPrintTable : N -> bool) (arg : string) (port : Z)
  (a : auth.Options) (e : engine.Options) : string :=
  configHead arg ++ FormatInt port ++
  " --tlsverify --tlscacert " ++ auth.CaCertRemotePath a ++
  " --tlscert " ++ auth.ServerCertRemotePath a ++
  " --tlskey " ++ auth.ServerKeyRemotePath a ++
  joined (map (fun label => " --label " ++ label) (engine.Labels e)) ++
  joined (map (fun registry => " --insecure-registry " ++ registry) (engine.InsecureRegistry e)) ++
  joined (map (fun mirror => " --registry-mirror " ++ mirror) (engine.RegistryMirror e)) ++
  joined (map (fun flag => " --" ++ flag) (engine.ArbitraryFlags e)) ++
  " \$DOCKER_OPTS \$DOCKER_OPT_BIP \$DOCKER_OPT_MTU \$DOCKER_OPT_IPMASQ" ++ nl ++
  environmentLine isPrintTable (engine.Env e) ++ nl.

(** The label that names the driver, and the provisioner after it has been
    appended. *)
Definition providerLabel {swarm_Options : Type} (p : Provisioner swarm_Options) : string :=
  "provider=" ++ drivers.DriverName (Driver p).

Definition labelled {swarm_Options : Type} (p : Provisioner swarm_Options)
  : Provisioner swarm_Options :=
  withEngineOptions p
    (engine.withLabels (EngineOptions p)
       (engine.Labels (EngineOptions p) ++ [providerLabel p])%list).

(** [m], [n] times in a row. *)
Fixpoint times {Host swarm_Options A : Type} (n : nat) (m : M Host swarm_Options A)
  : M Host swarm_Options unit :=
  match n with
  | O => ret tt
  | S k => bind m (fun _ => times k m)
  end.

(** The externals [ext], with the version comparison of [versioncmp]. *)
Definition withVersioncmp {Host swarm_Options : Type} (ext : Externals Host swarm_Options)
  : Externals Host swarm_Options :=
  {| isPrintTable := isPrintTable ext;
     GreaterThanOrEqualTo := versioncmp.GreaterThanOrEqualTo;
     SSHCommand := SSHCommand ext;
     DockerClientVersion := DockerClientVersion ext;
     waitForLock := waitForLock ext;
     makeDockerOptionsDir := makeDockerOptionsDir ext;
     setRemoteAuthOptions := setRemoteAuthOptions ext;
     ConfigureAuth := ConfigureAuth ext;
     configureSwarm := configureSwarm ext;
     Service := Service ext |}.

(** The start command names the legacy subcommand [daemon] after the
    binary. *)
Definition hasLegacyToken (text : string) : bool :=
  HasPrefix text
    ("[Service]" ++ nl ++ "Environment=TMPDIR=/var/tmp" ++ nl ++ "ExecStart=" ++ nl ++
     "ExecStart=/usr/bin/dockerd daemon ").

(** In the spec's words: the context is incomplete when a required auth
    path is missing. *)
Definition incompleteContext (a : auth.Options) : bool :=
  (auth.CaCertRemotePath a =? "") || (auth.ServerCertRemotePath a =? "")
  || (auth.ServerKeyRemotePath a =? "").

(** *** A sample host

    A host that counts the commands it has run and reports a given Docker
    version, 1.12.1 unless said otherwise, with collaborators that succeed
    without doing anything. *)
Module Sample.
Definition extAt (dockerVersion : string) : Externals nat unit :=
  {| isPrintTable := fun _ => false;
     GreaterThanOrEqualTo := versioncmp.GreaterThanOrEqualTo;
     SSHCommand := fun _ h => (Ok "", S h);
     DockerClientVersion := fun h => (Ok dockerVersion, S h);
     waitForLock := fun _ h => (None, S h);
     makeDockerOptionsDir := fun st => (None, st);
     setRemoteAuthOptions := fun st => (AuthOptions (fst st), st);
     ConfigureAuth := fun st => (None, st);
     configureSwarm := fun _ _ st => (None, st);
     Service := fun _ _ st => (None, st) |}.

Definition ext : Externals nat unit := extAt "1.12.1".

Definition authOptions : auth.Options :=
  {| auth.CaCertRemotePath := "/etc/docker/ca.pem";
     auth.ServerCertRemotePath := "/etc/docker/server.pem";
     auth.ServerKeyRemotePath := "/etc/docker/server-key.pem" |}.

Definition noAuthPaths : auth.Options :=
  {| auth.CaCertRemotePath := "";
     auth.ServerCertRemotePath := "";
     auth.ServerKeyRemotePath := "" |}.

Definition engineOptions : engine.Options :=
  {| engine.ArbitraryFlags := ["debug"];
     engine.Env := ["HTTP_PROXY=http://proxy:3128"; "NAME=a b"];
     engine.InsecureRegistry := ["registry.local:5000"];
     engine.Labels := ["tier=web"];
     engine.RegistryMirror := ["https://mirror.local"] |}.

Definition p : Provisioner unit :=
  {| Driver := {| drivers.DriverName := "virtualbox"; drivers.GetMachineName := "dev" |};
     DaemonOptionsFile := "/etc/systemd/system/docker.service.d/10-machine.conf";
     AuthOptions := authOptions;
     EngineOptions := engineOptions;
     SwarmOptions := tt |}.
End Sample.

(** The wait of the lock-retry executor, on a host whose calls are
    logged: the log is left as it is. *)
Definition spiedWait {Host swarm_Options : Type} (wait : Host -> Host)
  : Spied Host swarm_Options -> Spied Host swarm_Options :=
  fun s => (wait (fst s), snd s).

(** *** A host whose package manager may be locked

    The host counts the commands it has run; [answers] tells what the
    remote executor returns for the command run at each count. *)
Module Locked.
Definition lockHeld (e : error) : bool := contains e "Could not get lock".

Definition lockError : error := "E: Could not get lock /var/lib/swupd/lock".

Definition ext (answers : nat -> result string) : Externals nat unit :=
  {| isPrintTable := fun _ => false;
     GreaterThanOrEqualTo := versioncmp.GreaterThanOrEqualTo;
     SSHCommand := fun _ h => (answers h, S h);
     DockerClientVersion := fun h => (Ok "1.12.1", h);
     waitForLock := fun _ h => (None, h);
     makeDockerOptionsDir := fun st => (None, st);
     setRemoteAuthOptions := fun st => (AuthOptions (fst st), st);
     ConfigureAuth := fun st => (None, st);
     configureSwarm := fun _ _ st => (None, st);
     Service := fun _ _ st => (None, st) |}.

(** Locked for the first two runs; locked for ever; out of reach. *)
Definition twice (h : nat) : result string :=
  if Nat.ltb h 2 then Err lockError else Ok "".

Definition forEver (h : nat) : result string := Err lockError.

Definition unreachable (h : nat) : result string := Err "ssh: connection refused".
End Locked.

(** ** Reading the rendered text back *)

(** A decimal numeral without leading zeros, with an optional minus sign. *)
Definition isDigit (c : ascii) : bool :=
  (48 <=? N_of_ascii c)%N && (N_of_ascii c <=? 57)%N.

Fixpoint allDigits (s : string) : bool :=
  match s with
  | EmptyString => true
  | String c rest => isDigit c && allDigits rest
  end.

Definition unsignedNoLeadingZeros (digits : string) : bool :=
  match digits with
  | EmptyString => false
  | String c rest => allDigits digits && (negb (Ascii.eqb c "0") || String.eqb rest "")
  end.

Definition noLeadingZeros (s : string) : bool :=
  match s with
  | EmptyString => false
  | String c rest =>
      if Ascii.eqb c "-" then unsignedNoLeadingZeros rest else unsignedNoLeadingZeros s
  end.

(** The integer a decimal numeral denotes. *)
Definition ParseInt (s : string) : option Z :=
  option_map Z.of_int (NilZero.int_of_string s).

(** The last line of a text that ends in a line feed. *)
Definition lastLine (text : string) : option string :=
  match rev (template.splitOn (ascii_of_nat 10) [] text) with
  | EmptyString :: line :: _ => Some line
  | _ => None
  end.

(** The words of a line made of double-quoted words, each followed by a
    space.  Inside a word a backslash carries the character after it. *)
Module quoting.
Inductive mode := Between | Inside | Escaped | Closed.

Definition dquote : ascii := ascii_of_nat 34.

Fixpoint words (m : mode) (current : list ascii) (s : string) : option (list string) :=
  match s with
  | EmptyString =>
      match m with
      | Between => Some []
      | _ => None
      end
  | String c rest =>
      match m with
      | Between =>
          if Ascii.eqb c dquote then words Inside [c] rest else None
      | Inside =>
          if Ascii.eqb c dquote then words Closed (c :: current) rest
          else if Ascii.eqb c "\" then words Escaped (c :: current) rest
          else words Inside (c :: current) rest
      | Escaped => words Inside (c :: current) rest
      | Closed =>
          if Ascii.eqb c " " then
            option_map (cons (string_of_list_ascii (rev current))) (words Between [] rest)
          else None
      end
  end.
End quoting.

(** ** Shell-safe quoting, in the spec's words

    A word quotes a value safely for a shell when a POSIX shell that reads
    the word obtains the value: quote removal alone must give the value
    back, and nothing in the word may be subject to expansion or end the
    word early. *)
Module sh.
Inductive mode := Unquoted | Single | Double.

Definition dquote : ascii := ascii_of_nat 34.
Definition newline : ascii := ascii_of_nat 10.
Definition tab : ascii := ascii_of_nat 9.

(** Characters that, unquoted, end the word or start an expansion. *)
Definition special (c : ascii) : bool :=
  existsb (Ascii.eqb c)
    (list_ascii_of_string "|&;<>()$`*?[#~{}! " ++ [tab; newline])%list.

(** Characters a backslash escapes inside double quotes. *)
Definition escapable (c : ascii) : bool :=
  existsb (Ascii.eqb c) (dquote :: list_ascii_of_string "$`\").

(** The value of a word after quote removal; [None] when the word is
    unterminated or would be expanded or split. *)
Fixpoint readWord (m : mode) (s : string) : option string :=
  match s with
  | EmptyString =>
      match m with
      | Unquoted => Some ""
      | _ => None
      end
  | String c rest =>
      match m with
      | Unquoted =>
          if Ascii.eqb c "'" then readWord Single rest
          else if Ascii.eqb c dquote then readWord Double rest
          else if Ascii.eqb c "\" then
            match rest with
            | EmptyString => None
            | String c' rest' =>
                if Ascii.eqb c' newline then readWord Unquoted rest'
                else option_map (String c') (readWord Unquoted rest')
            end
          else if special c then None
          else option_map (String c) (readWord Unquoted rest)
      | Single =>
          if Ascii.eqb c "'" then readWord Unquoted rest
          else option_map (String c) (readWord Single rest)
      | Double =>
          if Ascii.eqb c dquote then readWord Unquoted rest
          else if Ascii.eqb c "\" then
            match rest with
            | EmptyString => None
            | String c' rest' =>
                if escapable c' then option_map (String c') (readWord Double rest')
                else if Ascii.eqb c' newline then readWord Double rest'
                else option_map (String c) (readWord Double rest)
            end
          else if Ascii.eqb c "$" || Ascii.eqb c "`" then None
          else option_map (String c) (readWord Double rest)
      end
  end.

Definition quotes (word value : string) : Prop :=
  readWord Unquoted word = Some value.
End sh.

(** The environment line of [text] holds, in order, one shell-safe word
    for each value of [env], each followed by a space. *)
Definition shellSafeEnvironment (text : string) (env : list string) : Prop :=
  exists words,
    Forall2 sh.quotes words env
    /\ lastLine text = Some ("Environment=" ++ joined (map (fun w => w ++ " ") words)).

(** Characters that neither close a double-quoted word nor escape. *)
Definition plain (c : ascii) : bool :=
  negb (Ascii.eqb c quoting.dquote) && negb (Ascii.eqb c "\").

Fixpoint allPlain (s : string) : bool :=
  match s with
  | EmptyString => true
  | String c rest => plain c && allPlain rest
  end.

(** What one rune is quoted as: plain characters, or a backslash, the
    character it carries, and plain characters. *)
Definition wellEscaped (chunk : string) : bool :=
  allPlain chunk
  || match chunk with
     | String c (String _ rest) => Ascii.eqb c "\" && allPlain rest
     | _ => false
     end.

Definition highBit (c : ascii) : bool :=
  match c with Ascii _ _ _ _ _ _ _ b => b end.

(** A provisioner whose one environment value refers to a shell
    variable. *)
Definition expandingEnv : list string := ["PATH=$HOME/bin"].

Definition expandingProvisioner : Provisioner unit :=
  withEngineOptions Sample.p
    {| engine.ArbitraryFlags := [];
       engine.Env := expandingEnv;
       engine.InsecureRegistry := [];
       engine.Labels := [];
       engine.RegistryMirror := [] |}.

(** *** A host on which the swarm cannot be configured

    Every call succeeds but [configureSwarm]; [setRemoteAuthOptions]
    returns the paths on the remote file system, whatever the provisioner
    holds. *)
Module SwarmDown.
Definition ext : Externals nat unit :=
  {| isPrintTable := fun _ => false;
     GreaterThanOrEqualTo := versioncmp.GreaterThanOrEqualTo;
     SSHCommand := fun _ h => (Ok "", S h);
     DockerClientVersion := fun h => (Ok "1.12.1", S h);
     waitForLock := fun _ h => (None, S h);
     makeDockerOptionsDir := fun st => (None, st);
     setRemoteAuthOptions := fun st => (Sample.authOptions, st);
     ConfigureAuth := fun st => (None, st);
     configureSwarm := fun _ _ st => (Some "swarm: cannot join the cluster", st);
     Service := fun _ _ st => (None, st) |}.
End SwarmDown.

(** A string without a line feed. *)
Fixpoint oneLine (s : string) : bool :=
  match s with
  | EmptyString => true
  | String c rest => negb (Ascii.eqb c (ascii_of_nat 10)) && oneLine rest
  end.

(** * Theorems *)

(** ** Strings *)

Lemma append_empty_r (s : string) : s ++ "" = s.
Proof. induction s as [|c s IH]; cbn; [reflexivity | now rewrite IH]. Qed.

Lemma append_assoc_string (a b c : string) : (a ++ b) ++ c = a ++ (b ++ c).
Proof. induction a as [|x a IH]; cbn; [reflexivity | now rewrite IH]. Qed.

(** ** Package *)

Lemma Sprintf_swupd (packageAction name : string) :
  Sprintf "swupd %s %s " [packageAction; name]
  = "swupd " ++ packageAction ++ " " ++ name ++ " ".
Proof. reflexivity. Qed.

Lemma Package_spied Host swarm_Options (ext : Externals Host swarm_Options)
  (name : string) (action : pkgaction.PackageAction)
  (p : Provisioner swarm_Options) (h : Host) :
  Package (spied ext) name action (p, (h, []))
  = let command := "swupd " ++ Translate.fragment action ++ " " ++ Translate.alias name ++ " " in
    let r := waitForLock ext command h in
    (fst r, (p, (snd r, [(CallWaitForLock command, fst r)]))).
Proof.
  unfold Package, onHost, Translate.alias. rewrite Sprintf_swupd.
  cbn [spied waitForLock]. unfold spyHost. cbn [fst snd].
  destruct action; cbn [Translate.fragment];
    match goal with |- context [waitForLock ext ?c h] =>
      destruct (waitForLock ext c h) as [err h'] end; reflexivity.
Qed.

(** C3: for every package name and each of the four actions, [Package]
    hands the lock-retry executor exactly one command, which is [swupd],
    a space, the fragment of the action ([bundle-add] for Install and
    Upgrade, [bundle-remove] for Purge), a space, the aliased name and a
    trailing space. *)
Theorem Package_command_shape :
  forall Host swarm_Options (ext : Externals Host swarm_Options)
         (name : string) (action : pkgaction.PackageAction)
         (p : Provisioner swarm_Options) (h : Host),
    map fst (callsOf (Package (spied ext) name action) p h)
    = [CallWaitForLock
         ("swupd " ++ Translate.fragment action ++ " " ++ Translate.alias name ++ " ")]
    /\ Translate.fragment pkgaction.Install = "bundle-add"
    /\ Translate.fragment pkgaction.Upgrade = "bundle-add"
    /\ Translate.fragment pkgaction.Purge = "bundle-remove".
Proof.
  intros. unfold callsOf. rewrite Package_spied. cbn. auto.
Qed.

(** C4: for the name [docker] with Install or Upgrade, the command holds
    [bundle-add] and the aliased bundle name [containers-basic], and does
    not hold [docker]. *)
Theorem Package_docker_aliased :
  forall Host swarm_Options (ext : Externals Host swarm_Options)
         (p : Provisioner swarm_Options) (h : Host),
    let installed := map fst (callsOf (Package (spied ext) "docker" pkgaction.Install) p h) in
    let upgraded := map fst (callsOf (Package (spied ext) "docker" pkgaction.Upgrade) p h) in
    let command := "swupd bundle-add containers-basic " in
    installed = [CallWaitForLock command]
    /\ upgraded = [CallWaitForLock command]
    /\ contains command "bundle-add" = true
    /\ contains command "containers-basic" = true
    /\ contains command "docker" = false.
Proof.
  intros. unfold installed, upgraded, callsOf. rewrite !Package_spied.
  cbn. repeat split; reflexivity.
Qed.

(** C5: for every package name, the command of the Remove action has an
    empty action fragment: it is [swupd], two spaces, the (aliased) name
    and a trailing space. *)
Theorem Package_remove_empty_fragment :
  forall Host swarm_Options (ext : Externals Host swarm_Options)
         (name : string) (p : Provisioner swarm_Options) (h : Host),
    map fst (callsOf (Package (spied ext) name pkgaction.Remove) p h)
    = [CallWaitForLock ("swupd  " ++ Translate.alias name ++ " ")].
Proof.
  intros. unfold callsOf. rewrite Package_spied. reflexivity.
Qed.

(** ** Provision *)

Lemma Sprintf_hostname (hostname : string) :
  Sprintf "sudo hostnamectl set-hostname %s" [hostname]
  = "sudo hostnamectl set-hostname " ++ hostname.
Proof. cbn. now rewrite append_empty_r. Qed.

Lemma SetHostname_spied Host swarm_Options (ext : Externals Host swarm_Options)
  (hostname : string) (p : Provisioner swarm_Options) (h : Host) (log : list (Entry swarm_Options)) :
  SetHostname (spied ext) hostname (p, (h, log))
  = let command := "sudo hostnamectl set-hostname " ++ hostname in
    let r := SSHCommand ext command h in
    (outcome (fst r),
     (p, (snd r, log ++ [(CallSSHCommand command, outcome (fst r))])%list)).
Proof.
  unfold SetHostname, bind, onHost, ret. rewrite Sprintf_hostname.
  cbn [spied SSHCommand]. unfold spyHost. cbn [fst snd]. cbv zeta.
  match goal with |- context [SSHCommand ext ?c h] =>
    destruct (SSHCommand ext c h) as [[out | e] h'] end; reflexivity.
Qed.

Ltac only_last_failed :=
  let i := fresh "i" in
  let Hi := fresh "Hi" in
  let Hlt := fresh "Hlt" in
  intros i ? Hi Hlt; cbn in Hlt;
  do 7 (destruct i as [|i];
        [ cbn in Hi; first [ injection Hi as <-; reflexivity | lia | discriminate ] | ]);
  lia.

Ltac not_in_log :=
  let Hin := fresh "Hin" in
  intros ? Hin; cbn in Hin;
  repeat (destruct Hin as [Hin | Hin]; [discriminate Hin | ]);
  contradiction Hin.

Ltac stopped_early :=
  cbn; split; [reflexivity | split; [only_last_failed | split; [reflexivity |
    split; [discriminate | not_in_log]]]].

(** C8: the provisioning sequence makes its external calls in the fixed
    order hostname-set, options-directory creation, base-package install,
    auth-path rewrite, auth configuration, swarm configuration, service
    enable; the auth options that the rewrite returns are the ones the
    provisioner holds when the auth is configured; the sequence stops at
    the first call that fails and returns that call's error unchanged, so
    that every logged call but the last succeeded, and a failure of the
    swarm configuration leaves the service enable uncalled. *)
Theorem Provision_strict_order :
  forall Host swarm_Options (ext : Externals Host swarm_Options)
         (swarmOptions : swarm_Options) (authOptions : auth.Options)
         (engineOptions : engine.Options)
         (p : Provisioner swarm_Options) (h : Host),
    let run := Provision (spied ext) swarmOptions authOptions engineOptions (p, (h, [])) in
    let log := calls (snd run) in
    exists beforeRewrite remote atSwarm atEnable,
      let expected :=
        provisionCalls (drivers.GetMachineName (Driver p)) swarmOptions
          authOptions beforeRewrite remote atSwarm atEnable in
      map fst log = firstn (length log) expected
      /\ (forall i entry, nth_error log i = Some entry -> S i < length log -> snd entry = None)
      /\ fst run = snd (last log (CallConfigureAuth remote, None))
      /\ (fst run = None -> map fst log = expected)
      /\ (forall e, In (CallConfigureSwarm swarmOptions atSwarm atSwarm, Some e) log ->
            fst run = Some e
            /\ forall held,
                 ~ In (CallService "docker" serviceaction.Enable held) (map fst log)).
Proof.
  intros. subst run log.
  unfold Provision, bind, orReturn, assign, provisioner, ret, callsOf.
  cbn [fst snd withSwarmOptions withAuthOptions withEngineOptions Driver AuthOptions].
  rewrite SetHostname_spied. cbv zeta. cbn [fst snd app].
  destruct (SSHCommand ext _ h) as [[out | e1] h1]; cbn [outcome fst snd].
  2:{ exists authOptions, authOptions, authOptions, authOptions. stopped_early. }
  unfold Package, onHost.
  cbn [spied makeDockerOptionsDir waitForLock setRemoteAuthOptions ConfigureAuth
         configureSwarm Service].
  unfold spySt, spyHost.
  cbn [fst snd id app withSwarmOptions withAuthOptions withEngineOptions AuthOptions].
  match goal with |- context [makeDockerOptionsDir ext ?s] =>
    destruct (makeDockerOptionsDir ext s) as [[e2|] [p2 h2]] end;
    cbn [fst snd id app withAuthOptions AuthOptions].
  { exists authOptions, authOptions, authOptions, authOptions. stopped_early. }
  rewrite Sprintf_swupd.
  match goal with |- context [waitForLock ext ?c ?s] =>
    destruct (waitForLock ext c s) as [[e3|] h3] end;
    cbn [fst snd id app withAuthOptions AuthOptions].
  { exists authOptions, authOptions, authOptions, authOptions. stopped_early. }
  match goal with |- context [setRemoteAuthOptions ext ?s] =>
    destruct (setRemoteAuthOptions ext s) as [remote [p4 h4]] end;
    cbn [fst snd id app withAuthOptions AuthOptions].
  match goal with |- context [ConfigureAuth ext ?s] =>
    destruct (ConfigureAuth ext s) as [[e5|] [p5 h5]] end;
    cbn [fst snd id app withAuthOptions AuthOptions].
  { exists (AuthOptions p2), remote, authOptions, authOptions. stopped_early. }
  match goal with |- context [configureSwarm ext ?a ?b ?s] =>
    destruct (configureSwarm ext a b s) as [[e6|] [p6 h6]] end;
    cbn [fst snd id app withAuthOptions AuthOptions].
  { exists (AuthOptions p2), remote, (AuthOptions p5), authOptions.
    cbn. split; [reflexivity | split; [only_last_failed | split; [reflexivity |
      split; [discriminate | ]]]].
    intros e Hin.
    repeat (destruct Hin as [Hin | Hin]; [try discriminate Hin | ]); try contradiction Hin.
    injection Hin as <-. split; [reflexivity | ].
    intros held Hs. repeat (destruct Hs as [Hs | Hs]; [discriminate Hs | ]). exact Hs. }
  match goal with |- context [Service ext ?a ?b ?s] =>
    destruct (Service ext a b s) as [e7 [p7 h7]] end;
    cbn [fst snd id app withAuthOptions AuthOptions].
  exists (AuthOptions p2), remote, (AuthOptions p5), (AuthOptions p6).
  cbn. split; [reflexivity | split; [only_last_failed | split; [reflexivity |
      split; [reflexivity | not_in_log ]]]].
Qed.

(** A run in which the auth options are rewritten to the remote paths and
    only the swarm configuration fails: the auth configuration finds the
    rewritten options, the run returns the error of the swarm configuration
    and never reaches the service enable. *)
Lemma Provision_strict_order_witness :
  let run :=
    Provision (spied SwarmDown.ext) tt Sample.noAuthPaths Sample.engineOptions
      (Sample.p, (0, [])) in
  map fst (calls (snd run))
  = [ CallSSHCommand "sudo hostnamectl set-hostname dev";
      CallMakeDockerOptionsDir Sample.noAuthPaths;
      CallWaitForLock "swupd bundle-add containers-basic ";
      CallSetRemoteAuthOptions Sample.noAuthPaths Sample.authOptions;
      CallConfigureAuth Sample.authOptions;
      CallConfigureSwarm tt Sample.authOptions Sample.authOptions ]
  /\ Sample.authOptions <> Sample.noAuthPaths
  /\ fst run = Some "swarm: cannot join the cluster"
  /\ forall held,
       ~ In (CallService "docker" serviceaction.Enable held) (map fst (calls (snd run))).
Proof.
  cbv zeta.
  destruct (@Provision_strict_order nat unit SwarmDown.ext tt Sample.noAuthPaths
              Sample.engineOptions Sample.p 0)
    as (beforeRewrite & remote & atSwarm & atEnable & Hprefix & _ & _ & _ & Hswarm).
  assert (Hlog : beforeRewrite = Sample.noAuthPaths /\ remote = Sample.authOptions
                 /\ atSwarm = Sample.authOptions).
  { vm_compute in Hprefix. injection Hprefix as H1 H2 H3.
    repeat split; symmetry; assumption. }
  destruct Hlog as (-> & -> & ->).
  destruct (Hswarm "swarm: cannot join the cluster") as [Herr Hnot].
  { vm_compute. do 5 right. left. reflexivity. }
  split; [reflexivity | ]. split; [discriminate | ].
  split; [exact Herr | exact Hnot].
Defined.

(** ** The engine configuration *)

Lemma Parse_engineConfigTmpl :
  template.Parse (engineConfigTmpl "daemon") = Ok (engineConfigTree "daemon")
  /\ template.Parse (engineConfigTmpl "") = Ok (engineConfigTree "").
Proof. split; vm_compute; reflexivity. Qed.

Lemma inOrder_strings (f : template.Value -> template.written) (g : string -> string)
  (l : list string) :
  (forall s, f (template.VString s) = (g s, None)) ->
  template.inOrder f (map template.VString l) = (joined (map g l), None).
Proof.
  intros Hf. induction l as [|s l IH]; cbn; [reflexivity | ].
  rewrite Hf. cbn in IH. rewrite IH. reflexivity.
Qed.

Lemma execNode_range_strings isPrintTable (dot : template.Value) (chain : list string)
  (body : list template.Node) (g : string -> string) (l : list string) :
  template.evalChain dot chain = Ok (EngineConfigContext.strings l) ->
  (forall s, template.inOrder (template.execNode isPrintTable (template.VString s)) body
             = (g s, None)) ->
  template.execNode isPrintTable dot (template.RangeNode chain body)
  = (joined (map g l), None).
Proof.
  intros Hchain Hbody. cbn [template.execNode]. rewrite Hchain.
  unfold EngineConfigContext.strings. now apply inOrder_strings.
Qed.

Lemma inOrder_cons {A} (f : A -> template.written) (x : A) (l : list A)
  (out out' : string) (e : option error) :
  f x = (out, None) ->
  template.inOrder f l = (out', e) ->
  template.inOrder f (x :: l) = (out ++ out', e).
Proof. intros Hx Hl. cbn. rewrite Hx. cbn in Hl. rewrite Hl. reflexivity. Qed.

Lemma exec_flag_body isPrintTable (text s : string) :
  template.inOrder (template.execNode isPrintTable (template.VString s))
    [template.TextNode text; template.FieldNode []]
  = (text ++ s, None).
Proof. cbn. now rewrite append_empty_r. Qed.

Lemma exec_env_body isPrintTable (s : string) :
  template.inOrder (template.execNode isPrintTable (template.VString s))
    [template.PrintfNode "%q" []; template.TextNode " "]
  = (strconv.Quote isPrintTable s ++ " ", None).
Proof. reflexivity. Qed.

Lemma Execute_engineConfigTree isPrintTable (arg : string) (port : Z)
  (a : auth.Options) (e : engine.Options) :
  template.Execute isPrintTable (engineConfigTree arg)
    (EngineConfigContext.reflect
       {| EngineConfigContext.DockerPort := port;
          EngineConfigContext.AuthOptions := a;
          EngineConfigContext.EngineOptions := e |})
  = (expectedConfig isPrintTable arg port a e, None).
Proof.
  unfold template.Execute, engineConfigTree.
  etransitivity.
  - repeat (eapply inOrder_cons;
            [ first [ eapply execNode_range_strings;
                      [ reflexivity | first [ apply exec_flag_body | apply exec_env_body ] ]
                    | reflexivity ]
            | ]).
    reflexivity.
  - reflexivity.
Qed.

Lemma GenerateDockerOptions_run Host swarm_Options (ext : Externals Host swarm_Options)
  (dockerPort : Z) (p : Provisioner swarm_Options) (h : Host) :
  GenerateDockerOptions ext dockerPort (p, h)
  = match DockerClientVersion ext h with
    | (Err err, h') => (Err err, (labelled p, h'))
    | (Ok dockerVersion, h') =>
        let arg := if GreaterThanOrEqualTo ext dockerVersion "1.12.0" then "" else "daemon" in
        (Ok {| DockerOptions.EngineOptions :=
                 expectedConfig (isPrintTable ext) arg dockerPort
                   (AuthOptions p) (EngineOptions (labelled p));
               DockerOptions.EngineOptionsPath := DaemonOptionsFile p |},
         (labelled p, h'))
    end.
Proof.
  unfold GenerateDockerOptions, bind, assign, provisioner, onHost, ret.
  cbn [fst snd]. 
  change (Sprintf "provider=%s" [drivers.DriverName (Driver p)])
    with ("provider=" ++ drivers.DriverName (Driver p) ++ "").
  rewrite append_empty_r. fold (providerLabel p). fold (labelled p).
  destruct (DockerClientVersion ext h) as [[dockerVersion | err] h']; [ | reflexivity].
  destruct Parse_engineConfigTmpl as [Hdaemon Hempty].
  destruct (GreaterThanOrEqualTo ext dockerVersion "1.12.0"); cbv zeta.
  - rewrite Hempty. cbn [fst snd]. rewrite Execute_engineConfigTree. reflexivity.
  - rewrite Hdaemon. cbn [fst snd]. rewrite Execute_engineConfigTree. reflexivity.
Qed.

Lemma GenerateDockerOptions_state Host swarm_Options (ext : Externals Host swarm_Options)
  (dockerPort : Z) (p : Provisioner swarm_Options) (h : Host) :
  snd (GenerateDockerOptions ext dockerPort (p, h))
  = (labelled p, snd (DockerClientVersion ext h)).
Proof.
  rewrite GenerateDockerOptions_run.
  destruct (DockerClientVersion ext h) as [[v | err] h']; reflexivity.
Qed.

(** C10: every call of [GenerateDockerOptions], whether it succeeds or not,
    appends the label [provider=<driver name>] to the labels of the
    provisioner's engine options, and [n] calls in a row leave [n] copies of
    it at their end. *)
Theorem GenerateDockerOptions_appends_provider_label :
  forall Host swarm_Options (ext : Externals Host swarm_Options)
         (dockerPort : Z) (n : nat) (p : Provisioner swarm_Options) (h : Host),
    engine.Labels (EngineOptions (fst (snd (GenerateDockerOptions ext dockerPort (p, h)))))
    = (engine.Labels (EngineOptions p) ++ [providerLabel p])%list
    /\ engine.Labels
         (EngineOptions (fst (snd (times n (GenerateDockerOptions ext dockerPort) (p, h)))))
       = (engine.Labels (EngineOptions p)
          ++ repeat (providerLabel p) n)%list
    /\ providerLabel p = "provider=" ++ drivers.DriverName (Driver p).
Proof.
  intros. split; [ | split; [ | reflexivity]].
  - rewrite GenerateDockerOptions_state. reflexivity.
  - revert p h. induction n as [|n IH]; intros p h.
    + cbn. now rewrite List.app_nil_r.
    + cbn [times]. unfold bind.
      destruct (GenerateDockerOptions ext dockerPort (p, h)) as [r st] eqn:Hrun.
      pose proof (GenerateDockerOptions_state ext dockerPort p h) as Hst.
      rewrite Hrun in Hst. cbn [snd] in Hst. subst st.
      rewrite IH. cbn. rewrite <- List.app_assoc. reflexivity.
Qed.

(** C1, as the code has it: the text [GenerateDockerOptions] renders is
    fixed by the port, the auth options, the engine options, the driver's
    name and the detected runtime version as they are when the call begins:
    from two provisioner states that agree on these (and may differ in
    everything else, the host included) it returns the same options, byte
    for byte.  A second run therefore renders the same text provided the
    engine options have been assigned anew, as [Provision] does at its
    start. *)
Theorem GenerateDockerOptions_same_inputs_same_text :
  forall Host swarm_Options (ext : Externals Host swarm_Options)
         (dockerPort : Z) (p1 p2 : Provisioner swarm_Options) (h1 h2 : Host)
         (dockerVersion : string),
    drivers.DriverName (Driver p1) = drivers.DriverName (Driver p2) ->
    AuthOptions p1 = AuthOptions p2 ->
    EngineOptions p1 = EngineOptions p2 ->
    DaemonOptionsFile p1 = DaemonOptionsFile p2 ->
    fst (DockerClientVersion ext h1) = Ok dockerVersion ->
    fst (DockerClientVersion ext h2) = Ok dockerVersion ->
    exists options,
      fst (GenerateDockerOptions ext dockerPort (p1, h1)) = Ok options
      /\ fst (GenerateDockerOptions ext dockerPort (p2, h2)) = Ok options.
Proof.
  intros Host swarm_Options ext dockerPort p1 p2 h1 h2 dockerVersion
         Hname Hauth Hengine Hfile Hv1 Hv2.
  rewrite !GenerateDockerOptions_run.
  destruct (DockerClientVersion ext h1) as [r1 h1'].
  destruct (DockerClientVersion ext h2) as [r2 h2'].
  cbn [fst] in Hv1, Hv2. subst r1 r2. cbn [fst].
  eexists. split; [reflexivity | ].
  unfold labelled, providerLabel. rewrite Hname, Hauth, Hengine, Hfile. reflexivity.
Qed.

(** The same options come out of a second run on a provisioner that still
    carries the label of the first run, once its engine options have been
    assigned anew. *)
Lemma GenerateDockerOptions_same_inputs_same_text_witness :
  let p2 := withEngineOptions (labelled Sample.p) Sample.engineOptions in
  drivers.DriverName (Driver Sample.p) = drivers.DriverName (Driver p2)
  /\ AuthOptions Sample.p = AuthOptions p2
  /\ EngineOptions Sample.p = EngineOptions p2
  /\ DaemonOptionsFile Sample.p = DaemonOptionsFile p2
  /\ fst (DockerClientVersion Sample.ext 0) = Ok "1.12.1"
  /\ fst (DockerClientVersion Sample.ext 7) = Ok "1.12.1"
  /\ exists options,
       fst (GenerateDockerOptions Sample.ext 2376 (Sample.p, 0)) = Ok options
       /\ fst (GenerateDockerOptions Sample.ext 2376 (p2, 7)) = Ok options.
Proof.
  repeat (split; [reflexivity | ]).
  apply (@GenerateDockerOptions_same_inputs_same_text nat unit Sample.ext 2376
           Sample.p (withEngineOptions (labelled Sample.p) Sample.engineOptions)
           0 7 "1.12.1"); reflexivity.
Defined.

(** C1 as stated fails: called a second time on the same provisioner, with
    the same port, the same auth options and the same detected version and
    nothing assigned in between, [GenerateDockerOptions] renders another
    text, because the first call has appended the provider label to the
    engine options. *)
Lemma GenerateDockerOptions_rerun_differs :
  let first := GenerateDockerOptions Sample.ext 2376 (Sample.p, 0) in
  let second := GenerateDockerOptions Sample.ext 2376 (snd first) in
  AuthOptions (fst (snd first)) = AuthOptions Sample.p
  /\ Driver (fst (snd first)) = Driver Sample.p
  /\ fst (DockerClientVersion Sample.ext 0) = Ok "1.12.1"
  /\ fst (DockerClientVersion Sample.ext (snd (snd first))) = Ok "1.12.1"
  /\ engine.Labels (EngineOptions (fst (snd first))) = ["tier=web"; "provider=virtualbox"]
  /\ exists options1 options2,
       fst first = Ok options1
       /\ fst second = Ok options2
       /\ contains (DockerOptions.EngineOptions options1)
            " --label tier=web --label provider=virtualbox --insecure-registry" = true
       /\ contains (DockerOptions.EngineOptions options2)
            " --label tier=web --label provider=virtualbox --label provider=virtualbox"
          = true
       /\ DockerOptions.EngineOptions options1 <> DockerOptions.EngineOptions options2.
Proof.
  cbv zeta. do 5 (split; [reflexivity | ]).
  eexists. eexists.
  split; [vm_compute; reflexivity | ]. split; [vm_compute; reflexivity | ].
  split; [vm_compute; reflexivity | ]. split; [vm_compute; reflexivity | ].
  vm_compute. discriminate.
Qed.

(** C2, as the code has it: [GenerateDockerOptions] returns the error of
    the version detection when that fails, and otherwise succeeds with the
    whole text, the template always parsing; missing auth paths are not
    reported but rendered as empty values. *)
Theorem GenerateDockerOptions_errors :
  forall Host swarm_Options (ext : Externals Host swarm_Options)
         (dockerPort : Z) (p : Provisioner swarm_Options) (h : Host),
    fst (GenerateDockerOptions ext dockerPort (p, h))
    = match fst (DockerClientVersion ext h) with
      | Err err => Err err
      | Ok dockerVersion =>
          Ok {| DockerOptions.EngineOptions :=
                  expectedConfig (isPrintTable ext)
                    (if GreaterThanOrEqualTo ext dockerVersion "1.12.0" then "" else "daemon")
                    dockerPort (AuthOptions p) (EngineOptions (labelled p));
                DockerOptions.EngineOptionsPath := DaemonOptionsFile p |}
      end
    /\ template.Parse (engineConfigTmpl "daemon") = Ok (engineConfigTree "daemon")
    /\ template.Parse (engineConfigTmpl "") = Ok (engineConfigTree "").
Proof.
  intros. split; [ | exact Parse_engineConfigTmpl].
  rewrite GenerateDockerOptions_run.
  destruct (DockerClientVersion ext h) as [[v | err] h']; reflexivity.
Qed.

(** C2 as stated fails: with every auth path missing the renderer still
    returns a success result, whose text has nothing after the TLS flags. *)
Lemma GenerateDockerOptions_incomplete_context_succeeds :
  let p := withAuthOptions Sample.p Sample.noAuthPaths in
  incompleteContext (AuthOptions p) = true
  /\ exists options,
       fst (GenerateDockerOptions Sample.ext 2376 (p, 0)) = Ok options
       /\ contains (DockerOptions.EngineOptions options)
            " --tlsverify --tlscacert  --tlscert  --tlskey  --label tier=web" = true.
Proof.
  split; [reflexivity | ].
  eexists. split; [vm_compute; reflexivity | vm_compute; reflexivity].
Qed.

(** C6: with the version comparison of [versioncmp], the start command
    names the legacy subcommand [daemon] exactly when the detected version
    is below 1.12.0; 1.11.0 is below it, 1.12.0 and 1.12.1 are not. *)
Theorem legacy_token_iff_below_1_12 :
  forall Host swarm_Options (ext : Externals Host swarm_Options)
         (dockerPort : Z) (p : Provisioner swarm_Options) (h : Host)
         (dockerVersion : string),
    fst (DockerClientVersion ext h) = Ok dockerVersion ->
    (exists options,
       fst (GenerateDockerOptions (withVersioncmp ext) dockerPort (p, h)) = Ok options
       /\ hasLegacyToken (DockerOptions.EngineOptions options)
          = versioncmp.LessThan dockerVersion "1.12.0")
    /\ versioncmp.LessThan "1.11.0" "1.12.0" = true
    /\ versioncmp.LessThan "1.12.0" "1.12.0" = false
    /\ versioncmp.LessThan "1.12.1" "1.12.0" = false.
Proof.
  intros Host swarm_Options ext dockerPort p h dockerVersion Hv.
  split; [ | repeat split; reflexivity].
  rewrite GenerateDockerOptions_run.
  cbn [withVersioncmp DockerClientVersion GreaterThanOrEqualTo isPrintTable].
  destruct (DockerClientVersion ext h) as [r h']. cbn [fst] in Hv. subst r.
  eexists. split; [reflexivity | ].
  cbn [DockerOptions.EngineOptions]. unfold versioncmp.GreaterThanOrEqualTo.
  destruct (versioncmp.LessThan dockerVersion "1.12.0"); reflexivity.
Qed.

(** The sample host at 1.11.0, where the token is rendered, and at 1.12.0
    and 1.12.1, where it is not. *)
Lemma legacy_token_iff_below_1_12_witness :
  let rendered version :=
    exists options,
      fst (GenerateDockerOptions (withVersioncmp (Sample.extAt version)) 2376 (Sample.p, 0))
      = Ok options
      /\ hasLegacyToken (DockerOptions.EngineOptions options)
         = versioncmp.LessThan version "1.12.0" in
  (fst (DockerClientVersion (Sample.extAt "1.11.0") 0) = Ok "1.11.0" /\ rendered "1.11.0")
  /\ (fst (DockerClientVersion (Sample.extAt "1.12.0") 0) = Ok "1.12.0" /\ rendered "1.12.0")
  /\ (fst (DockerClientVersion (Sample.extAt "1.12.1") 0) = Ok "1.12.1" /\ rendered "1.12.1").
Proof.
  cbv zeta.
  split; [ | split]; (split; [reflexivity | ]).
  - apply (@legacy_token_iff_below_1_12 nat unit (Sample.extAt "1.11.0") 2376 Sample.p 0
             "1.11.0" eq_refl).
  - apply (@legacy_token_iff_below_1_12 nat unit (Sample.extAt "1.12.0") 2376 Sample.p 0
             "1.12.0" eq_refl).
  - apply (@legacy_token_iff_below_1_12 nat unit (Sample.extAt "1.12.1") 2376 Sample.p 0
             "1.12.1" eq_refl).
Defined.

(** ** The lock-retry executor *)

Section LockRetryFacts.
Variables (Host swarm_Options : Type).
Variable ext : Externals Host swarm_Options.
Variable lockHeld : error -> bool.
Variable wait : Host -> Host.
Variable command : string.

Let call : Call swarm_Options := CallSSHCommand command.
Let attemptSpied :=
  LockRetry.attempt (SSHCommand (spied ext)) lockHeld
    (spiedWait (swarm_Options := swarm_Options) wait).

Lemma SSHCommand_spied (h : Host) (log : list (Entry swarm_Options)) :
  SSHCommand (spied ext) command (h, log)
  = (fst (SSHCommand ext command h),
     (snd (SSHCommand ext command h),
      log ++ [(call, outcome (fst (SSHCommand ext command h)))])%list).
Proof.
  cbn [spied SSHCommand]. unfold spyHost. cbn [fst snd].
  destruct (SSHCommand ext command h) as [r h']. reflexivity.
Qed.

Lemma attempt_unfold (retries : nat) (h : Host) (log : list (Entry swarm_Options)) :
  attemptSpied retries command (h, log)
  = let r := fst (SSHCommand ext command h) in
    let h' := snd (SSHCommand ext command h) in
    let log' := (log ++ [(call, outcome r)])%list in
    match r with
    | Ok output => (Ok output, (h', log'))
    | Err e =>
        if lockHeld e then
          match retries with
          | S n => attemptSpied n command (wait h', log')
          | O => (Err e, (h', log'))
          end
        else (Err e, (h', log'))
    end.
Proof.
  unfold attemptSpied.
  destruct retries as [|n]; cbn [LockRetry.attempt]; rewrite SSHCommand_spied; cbv zeta;
    destruct (fst (SSHCommand ext command h)) as [output | e]; reflexivity.
Qed.

(** What the attempts add to the log: between one and [retries + 1] runs of
    the command, all but the last stopped by the lock; the result is that of
    the last run, and a last run stopped by the lock is run [retries + 1]. *)
Lemma attempt_log (retries : nat) :
  forall (h : Host) (log : list (Entry swarm_Options)),
    let run := attemptSpied retries command (h, log) in
    exists added,
      snd (snd run) = (log ++ added)%list
      /\ 1 <= length added <= S retries
      /\ Forall (fun entry => fst entry = call) added
      /\ outcome (fst run) = snd (last added (call, None))
      /\ (forall i entry, nth_error added i = Some entry -> S i < length added ->
            exists e, snd entry = Some e /\ lockHeld e = true)
      /\ (forall e, outcome (fst run) = Some e -> lockHeld e = true ->
            length added = S retries).
Proof.
  induction retries as [|n IH]; intros h log run; subst run; rewrite attempt_unfold; cbv zeta.
  - exists [(call, outcome (fst (SSHCommand ext command h)))].
    destruct (fst (SSHCommand ext command h)) as [output | e]; [ | destruct (lockHeld e)];
      cbn; (split; [reflexivity | split; [lia | split; [repeat constructor | split;
        [reflexivity | split; [ | reflexivity || discriminate ]]]]]);
      intros [|i] entry Hi Hlt; cbn in Hlt; lia.
  - destruct (fst (SSHCommand ext command h)) as [output | e] eqn:Hr.
    + exists [(call, None)]. cbn.
      split; [reflexivity | split; [lia | split; [repeat constructor | split;
        [reflexivity | split; [ | discriminate ]]]]].
      intros [|i] entry Hi Hlt; cbn in Hlt; lia.
    + destruct (lockHeld e) eqn:Hlock.
      * destruct (IH (wait (snd (SSHCommand ext command h)))
                    (log ++ [(call, outcome (Err (A:=string) e))])%list)
          as (added & Hlog & Hlen & Hall & Hlast & Hbut & Hfull).
        exists ((call, Some e) :: added).
        split; [ rewrite Hlog, <- List.app_assoc; reflexivity | ].
        split; [ cbn; lia | ].
        split; [ constructor; [reflexivity | exact Hall] | ].
        split; [ rewrite Hlast; destruct added as [|a added']; [cbn in Hlen; lia | reflexivity] | ].
        split.
        -- intros [|i] entry Hi Hlt; cbn in Hi, Hlt.
           ++ injection Hi as <-. exists e. split; [reflexivity | exact Hlock].
           ++ apply (Hbut i entry Hi). lia.
        -- intros e' He' Hl'. cbn. f_equal. exact (Hfull e' He' Hl').
      * exists [(call, Some e)]. cbn.
        split; [reflexivity | split; [lia | split; [repeat constructor | split;
          [reflexivity | split; [ | ]]]]].
        -- intros [|i] entry Hi Hlt; cbn in Hlt; lia.
        -- intros e' He' Hl'. injection He' as <-. congruence.
Qed.

(** Where the remote executor answers every run of the command with the
    lock signature, so does the last attempt. *)
Lemma attempt_always_locked (retries : nat) :
  (forall h, exists e, fst (SSHCommand ext command h) = Err e /\ lockHeld e = true) ->
  forall (h : Host) (log : list (Entry swarm_Options)),
    exists e, fst (attemptSpied retries command (h, log)) = Err e /\ lockHeld e = true.
Proof.
  intros Hlocked. induction retries as [|n IH]; intros h log; rewrite attempt_unfold; cbv zeta;
    destruct (Hlocked h) as (e & He & Hl); rewrite He, Hl.
  - exists e. split; [reflexivity | exact Hl].
  - apply IH.
Qed.
End LockRetryFacts.

Lemma Package_lock_retry_run Host swarm_Options (ext : Externals Host swarm_Options)
  (lockHeld : error -> bool) (wait : Host -> Host) (ceiling : nat)
  (name : string) (action : pkgaction.PackageAction)
  (p : Provisioner swarm_Options) (h : Host) :
  Package (withLockRetry lockHeld (spiedWait wait) ceiling (spied ext)) name action (p, (h, []))
  = let command := "swupd " ++ Translate.fragment action ++ " " ++ Translate.alias name ++ " " in
    let tried :=
      LockRetry.attempt (SSHCommand (spied ext)) lockHeld
        (spiedWait (swarm_Options := swarm_Options) wait) (ceiling - 1) command (h, []) in
    (outcome (fst tried), (p, snd tried)).
Proof.
  unfold Package, onHost, Translate.alias. rewrite Sprintf_swupd.
  cbn [withLockRetry waitForLock fst snd].
  unfold LockRetry.waitForLock, LockRetry.RunWithLockRetry. cbv zeta.
  destruct action; cbn [Translate.fragment];
    match goal with |- context [LockRetry.attempt ?E ?l ?w ?n ?c ?s] =>
      destruct (LockRetry.attempt E l w n c s) as [r s'] end; reflexivity.
Qed.

(** C9: [Package], run over the lock-retry executor, only ever runs its one
    command; it runs it at least once and at most as often as the ceiling
    allows; every run but the last was stopped by the lock, and the result
    is the result of the last run, so an error that is not the lock
    signature ends the call at once and a lock error is returned only when
    the ceiling is reached.  With the lock held for exactly two runs the call
    succeeds on the third; with the lock held for ever it fails with the
    last lock error after as many runs as the ceiling. *)
Theorem Package_lock_retry :
  forall Host swarm_Options (ext : Externals Host swarm_Options)
         (lockHeld : error -> bool) (wait : Host -> Host) (ceiling : nat)
         (name : string) (action : pkgaction.PackageAction)
         (p : Provisioner swarm_Options) (h : Host),
    let command := "swupd " ++ Translate.fragment action ++ " " ++ Translate.alias name ++ " " in
    let call : Call swarm_Options := CallSSHCommand command in
    let run :=
      Package (withLockRetry lockHeld (spiedWait wait) ceiling (spied ext))
        name action (p, (h, [])) in
    let log := calls (snd run) in
    Forall (fun entry => fst entry = call) log
    /\ 1 <= length log <= Nat.max 1 ceiling
    /\ fst run = snd (last log (call, None))
    /\ (forall i entry, nth_error log i = Some entry -> S i < length log ->
          exists e, snd entry = Some e /\ lockHeld e = true)
    /\ (forall e, fst run = Some e -> lockHeld e = true -> length log = Nat.max 1 ceiling)
    /\ (forall e h1,
          SSHCommand ext command h = (Err e, h1) -> lockHeld e = false ->
          fst run = Some e /\ log = [(call, Some e)])
    /\ (forall e1 h1 e2 h2 output h3,
          3 <= ceiling ->
          SSHCommand ext command h = (Err e1, h1) -> lockHeld e1 = true ->
          SSHCommand ext command (wait h1) = (Err e2, h2) -> lockHeld e2 = true ->
          SSHCommand ext command (wait h2) = (Ok output, h3) ->
          fst run = None /\ log = [(call, Some e1); (call, Some e2); (call, None)])
    /\ ((forall h', exists e, fst (SSHCommand ext command h') = Err e /\ lockHeld e = true) ->
        1 <= ceiling ->
        length log = ceiling /\ exists e, fst run = Some e /\ lockHeld e = true).
Proof.
  intros. subst run log. rewrite Package_lock_retry_run. cbv zeta.
  fold command. unfold calls. cbn [fst snd].
  destruct (attempt_log ext lockHeld wait command (ceiling - 1) h [])
    as (added & Hlog & Hlen & Hall & Hlast & Hbut & Hfull).
  cbn [app] in Hlog. fold call in Hall, Hlast.
  set (tried := LockRetry.attempt _ _ _ _ _ _) in *.
  rewrite Hlog.
  split; [exact Hall | ].
  split; [lia | ].
  split; [exact Hlast | ].
  split; [exact Hbut | ].
  split; [ intros e He Hl; rewrite (Hfull e He Hl); lia | ].
  split; [ | split].
  - intros e h1 Hrun Hnot. rewrite <- Hlog. subst tried.
    rewrite attempt_unfold. cbv zeta. rewrite Hrun. cbn [fst snd]. rewrite Hnot.
    split; reflexivity.
  - intros e1 h1 e2 h2 output h3 Hceil H1 L1 H2 L2 H3. rewrite <- Hlog. subst tried.
    destruct ceiling as [|[|[|c]]]; try lia. cbn [Nat.sub].
    rewrite attempt_unfold. cbv zeta. rewrite H1. cbn [fst snd]. rewrite L1.
    rewrite attempt_unfold. cbv zeta. rewrite H2. cbn [fst snd]. rewrite L2.
    replace (S c - 0) with (S c) by lia.
    rewrite attempt_unfold. cbv zeta. rewrite H3. cbn [fst snd].
    split; reflexivity.
  - intros Hlocked Hceil.
    destruct (attempt_always_locked ext lockHeld wait command (ceiling - 1) Hlocked h [])
      as (e & He & Hl).
    fold tried in He.
    assert (Hout : outcome (fst tried) = Some e) by (rewrite He; reflexivity).
    split; [ rewrite (Hfull e Hout Hl); lia | ].
    exists e. split; [exact Hout | exact Hl].
Qed.

(** With a ceiling of five: the stub locked for two runs, the stub that
    cannot be reached, and the stub locked for ever. *)
Lemma Package_lock_retry_witness :
  let command := "swupd bundle-add containers-basic " in
  let run answers :=
    Package (withLockRetry Locked.lockHeld (spiedWait id) 5 (spied (Locked.ext answers)))
      "docker" pkgaction.Install (Sample.p, (0, [])) in
  (3 <= 5
   /\ SSHCommand (Locked.ext Locked.twice) command 0 = (Err Locked.lockError, 1)
   /\ Locked.lockHeld Locked.lockError = true
   /\ SSHCommand (Locked.ext Locked.twice) command 1 = (Err Locked.lockError, 2)
   /\ SSHCommand (Locked.ext Locked.twice) command 2 = (Ok "", 3)
   /\ fst (run Locked.twice) = None
   /\ length (calls (snd (run Locked.twice))) = 3)
  /\ (SSHCommand (Locked.ext Locked.unreachable) command 0
        = (Err "ssh: connection refused", 1)
      /\ Locked.lockHeld "ssh: connection refused" = false
      /\ fst (run Locked.unreachable) = Some "ssh: connection refused"
      /\ length (calls (snd (run Locked.unreachable))) = 1)
  /\ ((forall h', exists e,
         fst (SSHCommand (Locked.ext Locked.forEver) command h') = Err e
         /\ Locked.lockHeld e = true)
      /\ 1 <= 5
      /\ length (calls (snd (run Locked.forEver))) = 5
      /\ exists e, fst (run Locked.forEver) = Some e /\ Locked.lockHeld e = true).
Proof.
  cbv zeta. split; [ | split].
  - split; [lia | ]. split; [reflexivity | ]. split; [reflexivity | ].
    split; [reflexivity | ]. split; [reflexivity | ].
    destruct (@Package_lock_retry nat unit (Locked.ext Locked.twice) Locked.lockHeld id 5
                "docker" pkgaction.Install Sample.p 0)
      as (_ & _ & _ & _ & _ & _ & Htwice & _).
    destruct (Htwice Locked.lockError 1 Locked.lockError 2 "" 3)
      as [Hok Hlog]; try reflexivity; try lia.
    split; [exact Hok | ]. rewrite Hlog. reflexivity.
  - split; [reflexivity | ]. split; [reflexivity | ].
    destruct (@Package_lock_retry nat unit (Locked.ext Locked.unreachable) Locked.lockHeld id 5
                "docker" pkgaction.Install Sample.p 0)
      as (_ & _ & _ & _ & _ & Hother & _).
    destruct (Hother "ssh: connection refused" 1) as [Herr Hlog]; try reflexivity.
    split; [exact Herr | ]. rewrite Hlog. reflexivity.
  - assert (Hlocked : forall h', exists e,
              fst (SSHCommand (Locked.ext Locked.forEver)
                     "swupd bundle-add containers-basic " h') = Err e
              /\ Locked.lockHeld e = true)
      by (intros h'; exists Locked.lockError; split; reflexivity).
    split; [exact Hlocked | ]. split; [lia | ].
    destruct (@Package_lock_retry nat unit (Locked.ext Locked.forEver) Locked.lockHeld id 5
                "docker" pkgaction.Install Sample.p 0)
      as (_ & _ & _ & _ & _ & _ & _ & Hever).
    apply Hever; [exact Hlocked | lia].
Defined.

(** ** Numerals *)

Lemma to_uint_normal (p : positive) : Decimal.unorm (Pos.to_uint p) = Pos.to_uint p.
Proof.
  pose proof (DecimalPos.Unsigned.to_of (Pos.to_uint p)) as H.
  rewrite DecimalPos.Unsigned.of_to in H. symmetry. exact H.
Qed.

Lemma to_uint_no_leading_zero (p : positive) (u : Decimal.uint) :
  Pos.to_uint p <> Decimal.D0 u.
Proof.
  intros H. pose proof (to_uint_normal p) as Hn. rewrite H, unorm_D0 in Hn.
  assert (Hu : u = Decimal.Nil \/ u <> Decimal.Nil)
    by (destruct u; [left; reflexivity | right; discriminate ..]).
  destruct Hu as [-> | Hu].
  - exact (DecimalPos.Unsigned.to_uint_nonzero p H).
  - pose proof (nb_digits_unorm u Hu) as Hd. rewrite Hn in Hd. cbn in Hd. lia.
Qed.

Lemma allDigits_string_of_uint (d : Decimal.uint) :
  allDigits (NilEmpty.string_of_uint d) = true.
Proof. induction d; cbn; auto. Qed.

Lemma unsignedNoLeadingZeros_to_uint (p : positive) :
  unsignedNoLeadingZeros (NilZero.string_of_uint (Pos.to_uint p)) = true
  /\ noLeadingZeros (NilZero.string_of_uint (Pos.to_uint p)) = true.
Proof.
  pose proof (@to_uint_no_leading_zero p) as Hz.
  pose proof (DecimalPos.Unsigned.to_uint_nonnil p) as Hnil.
  pose proof (allDigits_string_of_uint (Pos.to_uint p)) as Hd.
  destruct (Pos.to_uint p) as [|u|u|u|u|u|u|u|u|u|u];
    try (now destruct Hnil); try (now destruct (Hz u));
    cbn in Hd |- *; rewrite Hd; split; reflexivity.
Qed.

Lemma FormatInt_noLeadingZeros (z : Z) : noLeadingZeros (FormatInt z) = true.
Proof.
  destruct z as [|p|p]; unfold FormatInt; cbn [Z.to_int NilZero.string_of_int].
  - reflexivity.
  - apply unsignedNoLeadingZeros_to_uint.
  - cbn [noLeadingZeros]. change (Ascii.eqb "-" "-") with true. cbv iota.
    apply unsignedNoLeadingZeros_to_uint.
Qed.

Lemma ParseInt_FormatInt (z : Z) : ParseInt (FormatInt z) = Some z.
Proof.
  unfold ParseInt, FormatInt. rewrite NilZero.isi.
  - cbn. now rewrite DecimalZ.of_to.
  - destruct z as [|p|p]; cbn; try discriminate.
    intros H. injection H as H. exact (DecimalPos.Unsigned.to_uint_nonnil p H).
  - destruct z as [|p|p]; cbn; try discriminate.
    intros H. injection H as H. exact (DecimalPos.Unsigned.to_uint_nonnil p H).
Qed.

(** ** Quoting *)

Lemma highBit_ascii_of_N (n : N) : highBit (ascii_of_N n) = N.testbit n 7.
Proof.
  destruct n as [|p]; [reflexivity | ].
  do 8 (destruct p as [p | p | ]; try reflexivity).
Qed.

Lemma highBit_plain (c : ascii) : highBit c = true -> plain c = true.
Proof. destruct c as [b0 b1 b2 b3 b4 b5 b6 b7]. cbn. intros ->. 
  destruct b0, b1, b2, b3, b4, b5, b6; reflexivity. Qed.

Lemma plain_lor (hi x : N) : N.testbit hi 7 = true -> plain (utf8.chr (N.lor hi x)) = true.
Proof.
  intros H. apply highBit_plain. unfold utf8.chr.
  rewrite highBit_ascii_of_N, N.lor_spec, H. reflexivity.
Qed.

Lemma plain_tail6 (r shift : N) : plain (utf8.tail6 r shift) = true.
Proof. unfold utf8.tail6. now apply plain_lor. Qed.

Lemma plain_low (r : N) :
  (r <=? 0x7F)%N = true -> (r =? 34)%N || (r =? 92)%N = false ->
  plain (utf8.chr r) = true.
Proof.
  intros Hlow Hq. apply N.leb_le in Hlow. apply orb_false_iff in Hq as [H34 H92].
  apply N.eqb_neq in H34, H92.
  unfold plain, utf8.chr.
  assert (Hr : N_of_ascii (ascii_of_N r) = r) by (apply N_ascii_embedding; lia).
  destruct (Ascii.eqb_spec (ascii_of_N r) quoting.dquote) as [E | _].
  { rewrite E in Hr. cbn in Hr. lia. }
  destruct (Ascii.eqb_spec (ascii_of_N r) "\") as [E | _].
  { rewrite E in Hr. cbn in Hr. lia. }
  reflexivity.
Qed.

Lemma allPlain_EncodeRune (r : N) :
  (r =? 34)%N || (r =? 92)%N = false -> allPlain (utf8.EncodeRune r) = true.
Proof.
  intros Hq. unfold utf8.EncodeRune.
  destruct (r <=? 0x7F)%N eqn:Hlow.
  { cbn [allPlain]. rewrite (plain_low r Hlow Hq). reflexivity. }
  destruct (r <=? 0x7FF)%N.
  { cbn [allPlain]. rewrite plain_tail6, plain_lor by reflexivity. reflexivity. }
  destruct ((if utf8.ValidRune r then r else utf8.RuneError) <=? 0xFFFF)%N;
    cbn [allPlain]; rewrite !plain_tail6, plain_lor by reflexivity; reflexivity.
Qed.

Lemma plain_lowerhex (n : N) : plain (strconv.lowerhex n) = true.
Proof.
  unfold strconv.lowerhex. generalize (N.to_nat n). intros m.
  do 16 (destruct m as [|m]; [reflexivity | ]). reflexivity.
Qed.

Ltac escaped_chunk :=
  unfold wellEscaped, strconv.hexDigit; cbn;
  rewrite ?plain_lowerhex; rewrite ?orb_true_r; reflexivity.

Lemma escapedRune_wellEscaped isPrintTable (r : N) :
  wellEscaped (strconv.escapedRune isPrintTable r) = true.
Proof.
  unfold strconv.escapedRune.
  destruct ((r =? 34)%N || (r =? 92)%N) eqn:Hq.
  { escaped_chunk. }
  destruct (strconv.IsPrint isPrintTable r).
  { unfold wellEscaped. now rewrite (allPlain_EncodeRune r Hq). }
  repeat match goal with
         | |- wellEscaped (if ?b then _ else _) = true => destruct b; [reflexivity | ]
         end.
  destruct ((r <? 32)%N || (r =? 0x7F)%N).
  { escaped_chunk. }
  cbv zeta.
  destruct ((if utf8.ValidRune r then r else utf8.RuneError) <? 0x10000)%N; escaped_chunk.
Qed.

Lemma rev_append_app {A} (l1 l2 acc : list A) :
  rev_append (l1 ++ l2)%list acc = rev_append l2 (rev_append l1 acc).
Proof. revert acc. induction l1 as [|x l1 IH]; intros acc; cbn; [reflexivity | apply IH]. Qed.

Lemma list_ascii_of_string_app (a b : string) :
  list_ascii_of_string (a ++ b) = (list_ascii_of_string a ++ list_ascii_of_string b)%list.
Proof. induction a as [|c a IH]; cbn; [reflexivity | now rewrite IH]. Qed.

Lemma string_of_list_ascii_app (a b : list ascii) :
  string_of_list_ascii (a ++ b)%list = string_of_list_ascii a ++ string_of_list_ascii b.
Proof. induction a as [|c a IH]; cbn; [reflexivity | now rewrite IH]. Qed.

Lemma words_plain (chunk t : string) (current : list ascii) :
  allPlain chunk = true ->
  quoting.words quoting.Inside current (chunk ++ t)
  = quoting.words quoting.Inside (rev_append (list_ascii_of_string chunk) current) t.
Proof.
  revert current. induction chunk as [|c chunk IH]; intros current Hp;
    cbn [quoting.words append list_ascii_of_string rev_append]; [reflexivity | ].
  cbn [allPlain] in Hp. apply andb_true_iff in Hp as [Hc Hrest].
  unfold plain in Hc. apply andb_true_iff in Hc as [Hq Hb].
  apply negb_true_iff in Hq, Hb. rewrite Hq, Hb. now apply IH.
Qed.

Lemma words_wellEscaped (chunk t : string) (current : list ascii) :
  wellEscaped chunk = true ->
  quoting.words quoting.Inside current (chunk ++ t)
  = quoting.words quoting.Inside (rev_append (list_ascii_of_string chunk) current) t.
Proof.
  unfold wellEscaped. intros H. apply orb_true_iff in H as [H | H].
  - now apply words_plain.
  - destruct chunk as [|c [|c' rest]]; try discriminate.
    apply andb_true_iff in H as [Hc Hrest]. apply Ascii.eqb_eq in Hc. subst c.
    cbn [quoting.words append list_ascii_of_string rev_append].
    change (Ascii.eqb "\" quoting.dquote) with false.
    change (Ascii.eqb "\" "\") with true. cbv iota.
    now apply words_plain.
Qed.

Lemma words_quoted isPrintTable (s : string) :
  forall (skip : nat) (t : string) (current : list ascii),
    quoting.words quoting.Inside current (strconv.quoted isPrintTable skip s ++ t)
    = quoting.words quoting.Inside
        (rev_append (list_ascii_of_string (strconv.quoted isPrintTable skip s)) current) t.
Proof.
  induction s as [|c rest IH]; intros skip t current.
  - destruct skip; reflexivity.
  - destruct skip as [|k]; cbn [strconv.quoted]; [ | apply IH].
    destruct (utf8.DecodeRuneInString c rest) as [r width].
    rewrite append_assoc_string, list_ascii_of_string_app, rev_append_app.
    rewrite words_wellEscaped.
    + apply IH.
    + destruct ((width =? 1)%nat && (r =? utf8.RuneError)%N).
      * escaped_chunk.
      * apply escapedRune_wellEscaped.
Qed.

Lemma words_Quote isPrintTable (value rest : string) :
  quoting.words quoting.Between [] (strconv.Quote isPrintTable value ++ " " ++ rest)
  = option_map (cons (strconv.Quote isPrintTable value))
      (quoting.words quoting.Between [] rest).
Proof.
  unfold strconv.Quote. rewrite !append_assoc_string.
  change (dq ++ ?x) with (String quoting.dquote x).
  cbn [quoting.words]. change (Ascii.eqb quoting.dquote quoting.dquote) with true. cbv iota.
  rewrite words_quoted. cbn.
  rewrite rev_append_rev, rev_app_distr, rev_involutive. cbn.
  rewrite string_of_list_ascii_app, string_of_list_ascii_of_string. reflexivity.
Qed.

(** The environment line splits into the quoted values, one word each. *)
Lemma words_environment isPrintTable (env : list string) :
  quoting.words quoting.Between []
    (joined (map (fun v => strconv.Quote isPrintTable v ++ " ") env))
  = Some (map (strconv.Quote isPrintTable) env).
Proof.
  induction env as [|v env IH]; [reflexivity | ].
  cbn [map joined fold_right]. fold (joined (map (fun v => strconv.Quote isPrintTable v ++ " ") env)).
  rewrite append_assoc_string, words_Quote, IH. reflexivity.
Qed.

(** C7, as the code has it: the text lists the labels (the provider label
    last), the insecure registries, the registry mirrors, the arbitrary
    flags and the environment values each in the order of its list; the
    port stands in it as a decimal numeral without leading zeros; each
    environment value is quoted on its own as [%q] quotes it, between double
    quotes with the double quotes and backslashes inside escaped, so that
    the environment line splits into one double-quoted word for each
    value; the dollar sign and the backquote are left as they are. *)
Theorem engine_config_rendering :
  forall Host swarm_Options (ext : Externals Host swarm_Options)
         (dockerPort : Z) (p : Provisioner swarm_Options) (h : Host)
         (dockerVersion : string),
    fst (DockerClientVersion ext h) = Ok dockerVersion ->
    let arg := if GreaterThanOrEqualTo ext dockerVersion "1.12.0" then "" else "daemon" in
    let a := AuthOptions p in
    let e := EngineOptions p in
    let quotedEnv := map (strconv.Quote (isPrintTable ext)) (engine.Env e) in
    fst (GenerateDockerOptions ext dockerPort (p, h))
    = Ok {| DockerOptions.EngineOptions :=
              "[Service]" ++ nl ++
              "Environment=TMPDIR=/var/tmp" ++ nl ++
              "ExecStart=" ++ nl ++
              "ExecStart=/usr/bin/dockerd " ++ arg ++
              " --host=unix:///var/run/docker.sock --host=tcp://0.0.0.0:" ++
              FormatInt dockerPort ++
              " --tlsverify --tlscacert " ++ auth.CaCertRemotePath a ++
              " --tlscert " ++ auth.ServerCertRemotePath a ++
              " --tlskey " ++ auth.ServerKeyRemotePath a ++
              joined (map (fun label => " --label " ++ label)
                        (engine.Labels e ++ [providerLabel p])%list) ++
              joined (map (fun registry => " --insecure-registry " ++ registry)
                        (engine.InsecureRegistry e)) ++
              joined (map (fun mirror => " --registry-mirror " ++ mirror)
                        (engine.RegistryMirror e)) ++
              joined (map (fun flag => " --" ++ flag) (engine.ArbitraryFlags e)) ++
              " \$DOCKER_OPTS \$DOCKER_OPT_BIP \$DOCKER_OPT_MTU \$DOCKER_OPT_IPMASQ" ++ nl ++
              "Environment=" ++ joined (map (fun word => word ++ " ") quotedEnv) ++ nl;
            DockerOptions.EngineOptionsPath := DaemonOptionsFile p |}
    /\ noLeadingZeros (FormatInt dockerPort) = true
    /\ ParseInt (FormatInt dockerPort) = Some dockerPort
    /\ quoting.words quoting.Between [] (joined (map (fun word => word ++ " ") quotedEnv))
       = Some quotedEnv
    /\ strconv.Quote (isPrintTable ext) ("a" ++ dq ++ "\b") = dq ++ "a\" ++ dq ++ "\\b" ++ dq
    /\ strconv.Quote (isPrintTable ext) "$HOME `id`" = dq ++ "$HOME `id`" ++ dq.
Proof.
  intros Host swarm_Options ext dockerPort p h dockerVersion Hv arg a e quotedEnv.
  assert (Hmap : map (fun word => word ++ " ") quotedEnv
                 = map (fun v => strconv.Quote (isPrintTable ext) v ++ " ") (engine.Env e))
    by (unfold quotedEnv; rewrite map_map; reflexivity).
  split; [ | split; [apply FormatInt_noLeadingZeros | split; [apply ParseInt_FormatInt |
    split; [ | split]]]].
  - rewrite GenerateDockerOptions_run.
    destruct (DockerClientVersion ext h) as [r h']. cbn [fst] in Hv. subst r.
    cbv zeta. cbn [fst]. fold arg. rewrite Hmap.
    unfold expectedConfig, configHead, environmentLine. cbn [labelled EngineOptions withEngineOptions
      engine.withLabels engine.Labels engine.InsecureRegistry engine.RegistryMirror
      engine.ArbitraryFlags engine.Env].
    fold a e. f_equal. f_equal.
    rewrite !append_assoc_string. reflexivity.
  - rewrite Hmap. apply words_environment.
  - reflexivity.
  - reflexivity.
Qed.

Lemma engine_config_rendering_witness :
  fst (DockerClientVersion Sample.ext 0) = Ok "1.12.1"
  /\ exists text,
       fst (GenerateDockerOptions Sample.ext 2376 (Sample.p, 0))
       = Ok {| DockerOptions.EngineOptions := text;
               DockerOptions.EngineOptionsPath := DaemonOptionsFile Sample.p |}
       /\ contains text
            (" --label tier=web --label provider=virtualbox" ++
             " --insecure-registry registry.local:5000" ++
             " --registry-mirror https://mirror.local --debug ") = true
       /\ contains text "tcp://0.0.0.0:2376 " = true.
Proof.
  split; [reflexivity | ].
  destruct (@engine_config_rendering nat unit Sample.ext 2376 Sample.p 0 "1.12.1" eq_refl)
    as (Htext & _).
  eexists. split; [exact Htext | ].
  split; vm_compute; reflexivity.
Defined.

Lemma append_space_injective (a b : string) : a ++ " " = b ++ " " -> a = b.
Proof.
  revert b. induction a as [|x a IH]; intros [|y b] H; cbn in H.
  - reflexivity.
  - injection H as _ H. destruct b; discriminate.
  - injection H as _ H. destruct a; discriminate.
  - injection H as -> H. f_equal. now apply IH.
Qed.

(** C7 as stated fails: the value [PATH=$HOME/bin] is rendered between
    double quotes with its dollar sign bare, which a shell would expand, so
    the environment line is not made of shell-safe words for the values. *)
Lemma environment_quoting_not_shell_safe :
  exists options,
    fst (GenerateDockerOptions Sample.ext 2376 (expandingProvisioner, 0)) = Ok options
    /\ lastLine (DockerOptions.EngineOptions options)
       = Some ("Environment=" ++ dq ++ "PATH=$HOME/bin" ++ dq ++ " ")
    /\ sh.readWord sh.Unquoted (dq ++ "PATH=$HOME/bin" ++ dq) = None
    /\ ~ shellSafeEnvironment (DockerOptions.EngineOptions options) expandingEnv.
Proof.
  eexists. split; [vm_compute; reflexivity | ].
  split; [vm_compute; reflexivity | ].
  split; [vm_compute; reflexivity | ].
  intros (words & Hall & Hline).
  unfold expandingEnv in Hall.
  inversion Hall as [ | word value ws vs Hq Hrest]; subst.
  inversion Hrest; subst.
  match type of Hline with lastLine ?text = _ =>
    assert (Hl : lastLine text = Some ("Environment=" ++ (dq ++ "PATH=$HOME/bin" ++ dq) ++ " "))
      by (vm_compute; reflexivity)
  end.
  rewrite Hl in Hline. cbn [map joined fold_right] in Hline.
  rewrite append_empty_r in Hline.
  injection Hline as Hline.
  change ((dq ++ "PATH=$HOME/bin" ++ dq) ++ " " = word ++ " ") in Hline.
  apply append_space_injective in Hline. subst word.
  unfold sh.quotes in Hq. vm_compute in Hq. discriminate Hq.
Qed.

(** * Further properties *)

(** ** SetHostname *)

(** X1: [SetHostname] runs one command, [sudo hostnamectl set-hostname]
    followed by the hostname as it is given; it drops the output, returns
    the error of the command unchanged and leaves the provisioner as it
    was.  The command determines the hostname. *)
Theorem SetHostname_one_command :
  forall Host swarm_Options (ext : Externals Host swarm_Options)
         (hostname hostname' : string) (p : Provisioner swarm_Options) (h : Host),
    let command := "sudo hostnamectl set-hostname " ++ hostname in
    let ran := SSHCommand ext command h in
    SetHostname ext hostname (p, h) = (outcome (fst ran), (p, snd ran))
    /\ callsOf (SetHostname (spied ext) hostname) p h
       = [(CallSSHCommand command, outcome (fst ran))]
    /\ (map fst (callsOf (SetHostname (spied ext) hostname) p h)
        = map fst (callsOf (SetHostname (spied ext) hostname') p h)
        <-> hostname = hostname').
Proof.
  intros. subst command ran. split; [ | split].
  - unfold SetHostname, bind, onHost, ret. rewrite Sprintf_hostname. cbn [fst snd].
    destruct (SSHCommand ext _ h) as [[out | e] h']; reflexivity.
  - unfold callsOf. rewrite SetHostname_spied. reflexivity.
  - unfold callsOf. rewrite !SetHostname_spied. cbn. split.
    + intros H. injection H as H. exact H.
    + intros ->. reflexivity.
Qed.

(** ** Package *)

(** X3: two calls of [Package] run the same command exactly when their names
    are the same after aliasing ([docker] standing for [containers-basic])
    and their actions are the same or are Install and Upgrade: no other two
    requests are confused, and Remove is told apart from all the others. *)
Theorem Package_same_command_iff :
  forall Host swarm_Options (ext : Externals Host swarm_Options)
         (name1 name2 : string) (action1 action2 : pkgaction.PackageAction)
         (p : Provisioner swarm_Options) (h : Host),
    let alias name := if String.eqb name "docker" then "containers-basic" else name in
    map fst (callsOf (Package (spied ext) name1 action1) p h)
    = map fst (callsOf (Package (spied ext) name2 action2) p h)
    <-> alias name1 = alias name2
        /\ (action1 = action2
            \/ (action1 = pkgaction.Install /\ action2 = pkgaction.Upgrade)
            \/ (action1 = pkgaction.Upgrade /\ action2 = pkgaction.Install)).
Proof.
  intros. unfold callsOf. rewrite !Package_spied. cbn [fst snd calls map].
  fold (alias name1) (alias name2).
  change (Translate.alias name1) with (alias name1).
  change (Translate.alias name2) with (alias name2).
  split.
  - intros H. injection H as H.
    destruct action1, action2; cbn in H; injection H as H;
      try discriminate H;
      try (apply append_space_injective in H; split; [exact H | tauto]).
  - intros [Hname Haction]. rewrite Hname.
    destruct Haction as [-> | [[-> ->] | [-> ->]]]; reflexivity.
Qed.

(** ** Provision *)

(** X4: [Provision] begins by assigning the three options it is given, so the
    options the provisioner held before, such as the labels left by an
    earlier run, have no part in the run: from two provisioners with the
    same driver and options file it returns the same error and leaves the
    same state. *)
Theorem Provision_overwrites_options :
  forall Host swarm_Options (ext : Externals Host swarm_Options)
         (swarmOptions : swarm_Options) (authOptions : auth.Options)
         (engineOptions : engine.Options)
         (p1 p2 : Provisioner swarm_Options) (h : Host),
    Driver p1 = Driver p2 ->
    DaemonOptionsFile p1 = DaemonOptionsFile p2 ->
    Provision ext swarmOptions authOptions engineOptions (p1, h)
    = Provision ext swarmOptions authOptions engineOptions (p2, h).
Proof.
  intros Host swarm_Options ext swarmOptions authOptions engineOptions p1 p2 h Hd Hf.
  assert (Hassigned :
            withEngineOptions (withAuthOptions (withSwarmOptions p1 swarmOptions) authOptions)
              engineOptions
            = withEngineOptions (withAuthOptions (withSwarmOptions p2 swarmOptions) authOptions)
                engineOptions).
  { unfold withEngineOptions, withAuthOptions, withSwarmOptions. cbn. now rewrite Hd, Hf. }
  unfold Provision, bind, assign, provisioner. cbn [fst snd].
  rewrite Hassigned. reflexivity.
Qed.

Lemma Provision_overwrites_options_witness :
  let p2 := withAuthOptions (labelled Sample.p) Sample.noAuthPaths in
  Driver Sample.p = Driver p2
  /\ DaemonOptionsFile Sample.p = DaemonOptionsFile p2
  /\ Sample.p <> p2
  /\ Provision Sample.ext tt Sample.authOptions Sample.engineOptions (Sample.p, 0)
     = Provision Sample.ext tt Sample.authOptions Sample.engineOptions (p2, 0).
Proof.
  cbv zeta. split; [reflexivity | ]. split; [reflexivity | ].
  split; [discriminate | ].
  apply (@Provision_overwrites_options nat unit Sample.ext tt Sample.authOptions
           Sample.engineOptions Sample.p
           (withAuthOptions (labelled Sample.p) Sample.noAuthPaths) 0); reflexivity.
Defined.

(** X5: when the hostname cannot be set, [Provision] returns that error after
    this one command; nothing is rolled back: the provisioner keeps the
    options that were assigned at the start. *)
Theorem Provision_hostname_failure :
  forall Host swarm_Options (ext : Externals Host swarm_Options)
         (swarmOptions : swarm_Options) (authOptions : auth.Options)
         (engineOptions : engine.Options)
         (p : Provisioner swarm_Options) (h h' : Host) (e : error),
    SSHCommand ext ("sudo hostnamectl set-hostname " ++ drivers.GetMachineName (Driver p)) h
    = (Err e, h') ->
    Provision ext swarmOptions authOptions engineOptions (p, h)
    = (Some e,
       ({| Driver := Driver p;
           DaemonOptionsFile := DaemonOptionsFile p;
           AuthOptions := authOptions;
           EngineOptions := engineOptions;
           SwarmOptions := swarmOptions |}, h'))
    /\ map fst (callsOf (Provision (spied ext) swarmOptions authOptions engineOptions) p h)
       = [CallSSHCommand
            ("sudo hostnamectl set-hostname " ++ drivers.GetMachineName (Driver p))].
Proof.
  intros Host swarm_Options ext swarmOptions authOptions engineOptions p h h' e Hssh.
  split.
  - unfold Provision, SetHostname, orReturn, bind, assign, provisioner, onHost, ret.
    cbn [fst snd withSwarmOptions withAuthOptions withEngineOptions Driver DaemonOptionsFile
           AuthOptions EngineOptions SwarmOptions].
    rewrite Sprintf_hostname, Hssh. reflexivity.
  - unfold callsOf, Provision, bind, orReturn, assign, provisioner.
    cbn [fst snd withSwarmOptions withAuthOptions withEngineOptions Driver].
    rewrite SetHostname_spied. cbv zeta. rewrite Hssh. reflexivity.
Qed.

Lemma Provision_hostname_failure_witness :
  let ext := Locked.ext Locked.unreachable in
  SSHCommand ext ("sudo hostnamectl set-hostname " ++ drivers.GetMachineName (Driver Sample.p)) 0
  = (Err "ssh: connection refused", 1)
  /\ fst (Provision ext tt Sample.noAuthPaths Sample.engineOptions (Sample.p, 0))
     = Some "ssh: connection refused"
  /\ AuthOptions (fst (snd (Provision ext tt Sample.noAuthPaths Sample.engineOptions
                              (Sample.p, 0))))
     = Sample.noAuthPaths.
Proof.
  cbv zeta. split; [reflexivity | ].
  destruct (@Provision_hostname_failure nat unit (Locked.ext Locked.unreachable) tt
              Sample.noAuthPaths Sample.engineOptions Sample.p 0 1
              "ssh: connection refused" eq_refl) as [Hrun _].
  rewrite Hrun. split; reflexivity.
Defined.

(** ** The engine configuration, further *)

(** X6: the error of [Execute] that [GenerateDockerOptions] drops is always
    nil: for either value of [arg] the template parses, and executing it
    fails for no port, auth options or engine options. *)
Theorem engineConfig_execution_never_fails :
  forall (isPrintTable : N -> bool) (dockerPort : Z)
         (a : auth.Options) (e : engine.Options),
    let data :=
      EngineConfigContext.reflect
        {| EngineConfigContext.DockerPort := dockerPort;
           EngineConfigContext.AuthOptions := a;
           EngineConfigContext.EngineOptions := e |} in
    (exists t, template.Parse (engineConfigTmpl "daemon") = Ok t
               /\ snd (template.Execute isPrintTable t data) = None)
    /\ (exists t, template.Parse (engineConfigTmpl "") = Ok t
                  /\ snd (template.Execute isPrintTable t data) = None).
Proof.
  intros. destruct Parse_engineConfigTmpl as [Hdaemon Hempty]. subst data.
  split; eexists; (split; [eassumption | ]); rewrite Execute_engineConfigTree; reflexivity.
Qed.

(** X7: [GenerateDockerOptions] reaches the host through one call only, the
    version detection, and changes nothing of the provisioner but the
    labels of its engine options. *)
Theorem GenerateDockerOptions_frame :
  forall Host swarm_Options (ext : Externals Host swarm_Options)
         (dockerPort : Z) (p : Provisioner swarm_Options) (h : Host),
    let after := fst (snd (GenerateDockerOptions ext dockerPort (p, h))) in
    map fst (callsOf (GenerateDockerOptions (spied ext) dockerPort) p h)
    = [CallDockerClientVersion]
    /\ snd (snd (GenerateDockerOptions ext dockerPort (p, h)))
       = snd (DockerClientVersion ext h)
    /\ Driver after = Driver p
    /\ DaemonOptionsFile after = DaemonOptionsFile p
    /\ AuthOptions after = AuthOptions p
    /\ SwarmOptions after = SwarmOptions p
    /\ engine.ArbitraryFlags (EngineOptions after) = engine.ArbitraryFlags (EngineOptions p)
    /\ engine.Env (EngineOptions after) = engine.Env (EngineOptions p)
    /\ engine.InsecureRegistry (EngineOptions after)
       = engine.InsecureRegistry (EngineOptions p)
    /\ engine.RegistryMirror (EngineOptions after) = engine.RegistryMirror (EngineOptions p).
Proof.
  intros. subst after. rewrite GenerateDockerOptions_state. cbn [fst snd].
  split; [ | repeat split].
  unfold callsOf. rewrite GenerateDockerOptions_state.
  cbn [snd spied DockerClientVersion calls]. unfold spyHost. cbn [fst snd].
  destruct (DockerClientVersion ext h) as [r h']. reflexivity.
Qed.

Lemma length_append_string (a b : string) :
  String.length (a ++ b) = String.length a + String.length b.
Proof. induction a as [|c a IH]; cbn; [reflexivity | now rewrite IH]. Qed.

Lemma joined_app (l1 l2 : list string) : joined (l1 ++ l2)%list = joined l1 ++ joined l2.
Proof.
  induction l1 as [|x l1 IH]; cbn; [reflexivity | ].
  fold (joined (l1 ++ l2)%list) (joined l1). now rewrite IH, append_assoc_string.
Qed.

Lemma expectedConfig_one_more_label isPrintTable (arg : string) (port : Z)
  (a : auth.Options) (e : engine.Options) (labels : list string) (label : string) :
  String.length (expectedConfig isPrintTable arg port a
                   (engine.withLabels e (labels ++ [label])%list))
  = String.length (expectedConfig isPrintTable arg port a (engine.withLabels e labels))
    + String.length (" --label " ++ label).
Proof.
  unfold expectedConfig.
  cbn [engine.withLabels engine.Labels engine.InsecureRegistry engine.RegistryMirror
         engine.ArbitraryFlags engine.Env].
  rewrite map_app, joined_app. cbn [map joined fold_right].
  rewrite !length_append_string. cbn [String.length]. lia.
Qed.

(** X8: called again on the same provisioner, [GenerateDockerOptions] does not
    render the same text: where both calls detect a version on the same
    side of 1.12.0, the second text is longer than the first by exactly one
    more provider label. *)
Theorem GenerateDockerOptions_second_call_longer :
  forall Host swarm_Options (ext : Externals Host swarm_Options)
         (dockerPort : Z) (p : Provisioner swarm_Options) (h h1 h2 : Host)
         (version1 version2 : string),
    DockerClientVersion ext h = (Ok version1, h1) ->
    DockerClientVersion ext h1 = (Ok version2, h2) ->
    GreaterThanOrEqualTo ext version1 "1.12.0" = GreaterThanOrEqualTo ext version2 "1.12.0" ->
    let first := GenerateDockerOptions ext dockerPort (p, h) in
    let second := GenerateDockerOptions ext dockerPort (snd first) in
    exists options1 options2,
      fst first = Ok options1
      /\ fst second = Ok options2
      /\ String.length (DockerOptions.EngineOptions options2)
         = String.length (DockerOptions.EngineOptions options1)
           + String.length (" --label provider=" ++ drivers.DriverName (Driver p))
      /\ options1 <> options2.
Proof.
  intros Host swarm_Options ext dockerPort p h h1 h2 version1 version2 H1 H2 Hside first second.
  subst second first. rewrite (GenerateDockerOptions_run ext dockerPort p h), H1.
  cbv zeta. cbn [fst snd]. rewrite GenerateDockerOptions_run, H2. cbv zeta. cbn [fst].
  rewrite <- Hside.
  do 2 eexists. split; [reflexivity | ]. split; [reflexivity | ].
  cbn [DockerOptions.EngineOptions].
  assert (Hlen : forall isP arg a,
             String.length (expectedConfig isP arg dockerPort a
                              (EngineOptions (labelled (labelled p))))
             = String.length (expectedConfig isP arg dockerPort a (EngineOptions (labelled p)))
               + String.length (" --label provider=" ++ drivers.DriverName (Driver p))).
  { intros isP arg a.
    exact (expectedConfig_one_more_label isP arg dockerPort a (EngineOptions p)
             (engine.Labels (EngineOptions p) ++ [providerLabel p])%list (providerLabel p)). }
  split; [apply Hlen | ].
  intros Heq. apply (f_equal DockerOptions.EngineOptions) in Heq.
  apply (f_equal String.length) in Heq. cbn [DockerOptions.EngineOptions] in Heq.
  cbn [AuthOptions labelled withEngineOptions] in Heq.
  rewrite (Hlen _ _ _) in Heq. cbn [String.length append] in Heq. lia.
Qed.

Lemma GenerateDockerOptions_second_call_longer_witness :
  DockerClientVersion Sample.ext 0 = (Ok "1.12.1", 1)
  /\ DockerClientVersion Sample.ext 1 = (Ok "1.12.1", 2)
  /\ exists options1 options2,
       fst (GenerateDockerOptions Sample.ext 2376 (Sample.p, 0)) = Ok options1
       /\ fst (GenerateDockerOptions Sample.ext 2376
                 (snd (GenerateDockerOptions Sample.ext 2376 (Sample.p, 0)))) = Ok options2
       /\ String.length (DockerOptions.EngineOptions options2)
          = String.length (DockerOptions.EngineOptions options1) + 28
       /\ options1 <> options2.
Proof.
  split; [reflexivity | ]. split; [reflexivity | ].
  exact (@GenerateDockerOptions_second_call_longer nat unit Sample.ext 2376 Sample.p 0 1 2
           "1.12.1" "1.12.1" eq_refl eq_refl eq_refl).
Defined.

(** X9: the detected version bears on the result only through its comparison
    with 1.12.0: two successful calls from the same provisioner return the
    same options exactly when their versions fall on the same side of it. *)
Theorem GenerateDockerOptions_version_side :
  forall Host swarm_Options (ext : Externals Host swarm_Options)
         (dockerPort : Z) (p : Provisioner swarm_Options) (h1 h2 : Host)
         (version1 version2 : string),
    fst (DockerClientVersion ext h1) = Ok version1 ->
    fst (DockerClientVersion ext h2) = Ok version2 ->
    (fst (GenerateDockerOptions ext dockerPort (p, h1))
     = fst (GenerateDockerOptions ext dockerPort (p, h2))
     <-> GreaterThanOrEqualTo ext version1 "1.12.0"
         = GreaterThanOrEqualTo ext version2 "1.12.0").
Proof.
  intros Host swarm_Options ext dockerPort p h1 h2 version1 version2 H1 H2.
  rewrite !GenerateDockerOptions_run.
  destruct (DockerClientVersion ext h1) as [r1 h1'].
  destruct (DockerClientVersion ext h2) as [r2 h2'].
  cbn [fst] in H1, H2. subst r1 r2. cbv zeta. cbn [fst].
  split.
  - intros Heq.
    apply (f_equal (fun r => match r with
                             | Ok options =>
                                 hasLegacyToken (DockerOptions.EngineOptions options)
                             | Err _ => false
                             end)) in Heq.
    cbn [DockerOptions.EngineOptions] in Heq.
    assert (Hlegacy : forall isP a e,
               hasLegacyToken (expectedConfig isP "daemon" dockerPort a e) = true)
      by reflexivity.
    assert (Hplain : forall isP a e,
               hasLegacyToken (expectedConfig isP "" dockerPort a e) = false)
      by reflexivity.
    destruct (GreaterThanOrEqualTo ext version1 "1.12.0"),
             (GreaterThanOrEqualTo ext version2 "1.12.0");
      try reflexivity; rewrite ?Hlegacy, ?Hplain in Heq; discriminate Heq.
  - intros ->. reflexivity.
Qed.

Lemma GenerateDockerOptions_version_side_witness :
  fst (DockerClientVersion (Sample.extAt "1.12.0") 0) = Ok "1.12.0"
  /\ fst (DockerClientVersion (Sample.extAt "1.12.0") 5) = Ok "1.12.0"
  /\ (fst (GenerateDockerOptions (Sample.extAt "1.12.0") 2376 (Sample.p, 0))
      = fst (GenerateDockerOptions (Sample.extAt "1.12.0") 2376 (Sample.p, 5))
      <-> GreaterThanOrEqualTo (Sample.extAt "1.12.0") "1.12.0" "1.12.0"
          = GreaterThanOrEqualTo (Sample.extAt "1.12.0") "1.12.0" "1.12.0").
Proof.
  split; [reflexivity | ]. split; [reflexivity | ].
  exact (@GenerateDockerOptions_version_side nat unit (Sample.extAt "1.12.0") 2376 Sample.p
           0 5 "1.12.0" "1.12.0" eq_refl eq_refl).
Defined.

(** ** The lines of the rendered text *)

Lemma oneLine_append (a b : string) : oneLine (a ++ b) = oneLine a && oneLine b.
Proof.
  induction a as [|c a IH]; cbn [append oneLine]; [reflexivity | ].
  now rewrite IH, andb_assoc.
Qed.

Lemma highBit_not_line_feed (c : ascii) :
  highBit c = true -> Ascii.eqb c (ascii_of_nat 10) = false.
Proof.
  destruct c as [b0 b1 b2 b3 b4 b5 b6 b7]. cbn. intros ->.
  destruct b0, b1, b2, b3, b4, b5, b6; reflexivity.
Qed.

Lemma lor_not_line_feed (hi x : N) :
  N.testbit hi 7 = true -> Ascii.eqb (utf8.chr (N.lor hi x)) (ascii_of_nat 10) = false.
Proof.
  intros H. apply highBit_not_line_feed. unfold utf8.chr.
  rewrite highBit_ascii_of_N, N.lor_spec, H. reflexivity.
Qed.

Lemma oneLine_EncodeRune isPrintTable (r : N) :
  strconv.IsPrint isPrintTable r = true -> oneLine (utf8.EncodeRune r) = true.
Proof.
  intros Hprint. unfold utf8.EncodeRune.
  destruct (r <=? 0x7F)%N eqn:Hlow.
  { apply N.leb_le in Hlow. unfold strconv.IsPrint in Hprint.
    replace (r <=? 0xFF)%N with true in Hprint by (symmetry; apply N.leb_le; lia).
    destruct ((0x20 <=? r)%N && (r <=? 0x7E)%N) eqn:Hascii.
    - apply andb_true_iff in Hascii as [Hge _]. apply N.leb_le in Hge.
      cbn [oneLine]. rewrite andb_true_r. apply negb_true_iff.
      destruct (Ascii.eqb_spec (utf8.chr r) (ascii_of_nat 10)) as [E | _]; [ | reflexivity].
      assert (Hr : N_of_ascii (ascii_of_N r) = r) by (apply N_ascii_embedding; lia).
      unfold utf8.chr in E. rewrite E in Hr. cbn in Hr. lia.
    - replace (0xA1 <=? r)%N with false in Hprint by (symmetry; apply N.leb_gt; lia).
      discriminate Hprint. }
  unfold utf8.tail6.
  destruct (r <=? 0x7FF)%N;
    [ | destruct ((if utf8.ValidRune r then r else utf8.RuneError) <=? 0xFFFF)%N];
    cbn [oneLine]; rewrite !lor_not_line_feed by reflexivity; reflexivity.
Qed.

Lemma lowerhex_not_line_feed (n : N) :
  Ascii.eqb (strconv.lowerhex n) (ascii_of_nat 10) = false.
Proof.
  unfold strconv.lowerhex. generalize (N.to_nat n). intros m.
  do 16 (destruct m as [|m]; [reflexivity | ]). reflexivity.
Qed.

Ltac one_line_chunk :=
  unfold strconv.hexDigit; cbn [append oneLine];
  rewrite ?lowerhex_not_line_feed; reflexivity.

Lemma oneLine_escapedRune isPrintTable (r : N) :
  oneLine (strconv.escapedRune isPrintTable r) = true.
Proof.
  unfold strconv.escapedRune.
  destruct ((r =? 34)%N || (r =? 92)%N) eqn:Hq.
  { apply orb_true_iff in Hq as [Hq | Hq]; apply N.eqb_eq in Hq; subst r; reflexivity. }
  destruct (strconv.IsPrint isPrintTable r) eqn:Hprint.
  { exact (oneLine_EncodeRune isPrintTable r Hprint). }
  repeat match goal with
         | |- oneLine (if ?b then _ else _) = true => destruct b; [reflexivity | ]
         end.
  destruct ((r <? 32)%N || (r =? 0x7F)%N); [one_line_chunk | ].
  cbv zeta.
  destruct ((if utf8.ValidRune r then r else utf8.RuneError) <? 0x10000)%N; one_line_chunk.
Qed.

Lemma oneLine_quoted isPrintTable (s : string) :
  forall skip, oneLine (strconv.quoted isPrintTable skip s) = true.
Proof.
  induction s as [|c rest IH]; intros skip; [destruct skip; reflexivity | ].
  destruct skip as [|k]; cbn [strconv.quoted]; [ | apply IH].
  destruct (utf8.DecodeRuneInString c rest) as [r width].
  rewrite oneLine_append, IH, andb_true_r.
  destruct ((width =? 1)%nat && (r =? utf8.RuneError)%N);
    [one_line_chunk | apply oneLine_escapedRune].
Qed.

Lemma oneLine_Quote isPrintTable (v : string) :
  oneLine (strconv.Quote isPrintTable v ++ " ") = true.
Proof.
  unfold strconv.Quote. rewrite !oneLine_append, oneLine_quoted. reflexivity.
Qed.

Lemma oneLine_environmentLine isPrintTable (env : list string) :
  oneLine (environmentLine isPrintTable env) = true.
Proof.
  unfold environmentLine. rewrite oneLine_append.
  change (oneLine "Environment=") with true. cbn [andb].
  induction env as [|v env IH]; [reflexivity | ].
  cbn [map joined fold_right].
  change (fold_right append "" ?l) with (joined l).
  rewrite oneLine_append, oneLine_Quote, IH. reflexivity.
Qed.

Lemma splitOn_at_separator (sep : ascii) (pre tail : string) :
  forall acc,
    template.splitOn sep acc (pre ++ String sep tail)
    = (template.splitOn sep acc pre ++ template.splitOn sep [] tail)%list.
Proof.
  induction pre as [|c pre IH]; intros acc; cbn [append template.splitOn].
  - now rewrite Ascii.eqb_refl.
  - destruct (Ascii.eqb c sep); [cbn [app]; now rewrite IH | apply IH].
Qed.

Lemma splitOn_oneLine (line : string) :
  forall acc,
    oneLine line = true ->
    template.splitOn (ascii_of_nat 10) acc line
    = [string_of_list_ascii (rev acc) ++ line].
Proof.
  induction line as [|c line IH]; intros acc Hline; cbn [template.splitOn].
  - now rewrite append_empty_r.
  - cbn [oneLine] in Hline. apply andb_true_iff in Hline as [Hc Hrest].
    apply negb_true_iff in Hc. rewrite Hc, (IH _ Hrest). cbn [rev].
    rewrite string_of_list_ascii_app, append_assoc_string. reflexivity.
Qed.

Lemma lastLine_after (pre line : string) :
  oneLine line = true -> lastLine (pre ++ nl ++ line ++ nl) = Some line.
Proof.
  intros Hline. unfold lastLine, nl. cbn [append].
  rewrite splitOn_at_separator, splitOn_at_separator, (@splitOn_oneLine line [] Hline).
  cbn [template.splitOn rev app string_of_list_ascii append].
  rewrite !rev_app_distr. reflexivity.
Qed.

(** X10: whatever the labels, paths, flags and environment values are, the last
    line of the rendered text is the [Environment=] line that holds the
    quoted values: a line feed inside an environment value is escaped by
    [%q] and cannot start a line of its own. *)
Theorem environment_is_last_line :
  forall Host swarm_Options (ext : Externals Host swarm_Options)
         (dockerPort : Z) (p : Provisioner swarm_Options) (h : Host)
         (dockerVersion : string),
    fst (DockerClientVersion ext h) = Ok dockerVersion ->
    exists options,
      fst (GenerateDockerOptions ext dockerPort (p, h)) = Ok options
      /\ lastLine (DockerOptions.EngineOptions options)
         = Some ("Environment="
                 ++ joined (map (fun v => strconv.Quote (isPrintTable ext) v ++ " ")
                              (engine.Env (EngineOptions p))))
      /\ HasPrefix (DockerOptions.EngineOptions options)
           ("[Service]" ++ nl ++ "Environment=TMPDIR=/var/tmp" ++ nl ++ "ExecStart=" ++ nl ++
            "ExecStart=/usr/bin/dockerd ") = true.
Proof.
  intros Host swarm_Options ext dockerPort p h dockerVersion Hv.
  rewrite GenerateDockerOptions_run.
  destruct (DockerClientVersion ext h) as [r h']. cbn [fst] in Hv. subst r.
  cbv zeta. cbn [fst]. eexists. split; [reflexivity | ].
  cbn [DockerOptions.EngineOptions].
  split; [ | destruct (GreaterThanOrEqualTo ext dockerVersion "1.12.0"); reflexivity].
  fold (environmentLine (isPrintTable ext) (engine.Env (EngineOptions p))).
  rewrite <- (lastLine_after
                (configHead (if GreaterThanOrEqualTo ext dockerVersion "1.12.0"
                             then "" else "daemon")
                 ++ FormatInt dockerPort
                 ++ " --tlsverify --tlscacert " ++ auth.CaCertRemotePath (AuthOptions p)
                 ++ " --tlscert " ++ auth.ServerCertRemotePath (AuthOptions p)
                 ++ " --tlskey " ++ auth.ServerKeyRemotePath (AuthOptions p)
                 ++ joined (map (fun label => " --label " ++ label)
                              (engine.Labels (EngineOptions (labelled p))))
                 ++ joined (map (fun registry => " --insecure-registry " ++ registry)
                              (engine.InsecureRegistry (EngineOptions p)))
                 ++ joined (map (fun mirror => " --registry-mirror " ++ mirror)
                              (engine.RegistryMirror (EngineOptions p)))
                 ++ joined (map (fun flag => " --" ++ flag)
                              (engine.ArbitraryFlags (EngineOptions p)))
                 ++ " \$DOCKER_OPTS \$DOCKER_OPT_BIP \$DOCKER_OPT_MTU \$DOCKER_OPT_IPMASQ")
                (environmentLine (isPrintTable ext) (engine.Env (EngineOptions p)))
                (oneLine_environmentLine _ _)).
  f_equal. unfold expectedConfig.
  cbn [labelled EngineOptions withEngineOptions engine.withLabels engine.Labels
         engine.InsecureRegistry engine.RegistryMirror engine.ArbitraryFlags engine.Env].
  rewrite !append_assoc_string. reflexivity.
Qed.

Lemma environment_is_last_line_witness :
  fst (DockerClientVersion Sample.ext 0) = Ok "1.12.1"
  /\ exists options,
       fst (GenerateDockerOptions Sample.ext 2376
              (withEngineOptions Sample.p
                 (engine.withLabels Sample.engineOptions ["a=b" ++ nl ++ "ExecStartPre=/bin/x"]),
               0)) = Ok options
       /\ lastLine (DockerOptions.EngineOptions options)
          = Some ("Environment=" ++ dq ++ "HTTP_PROXY=http://proxy:3128" ++ dq ++ " "
                  ++ dq ++ "NAME=a b" ++ dq ++ " ").
Proof.
  split; [reflexivity | ].
  destruct (@environment_is_last_line nat unit Sample.ext 2376
              (withEngineOptions Sample.p
                 (engine.withLabels Sample.engineOptions ["a=b" ++ nl ++ "ExecStartPre=/bin/x"]))
              0 "1.12.1" eq_refl) as (options & Hrun & Hlast & _).
  exists options. split; [exact Hrun | exact Hlast].
Defined.

(** ** Observation

    Logging the calls changes nothing of a run: with the wrapped externals
    [Provision] returns the same error and leaves the same provisioner and
    host as with the externals themselves. *)
Lemma Provision_spied_same_run Host swarm_Options (ext : Externals Host swarm_Options)
  (swarmOptions : swarm_Options) (authOptions : auth.Options)
  (engineOptions : engine.Options) (p : Provisioner swarm_Options) (h : Host)
  (log : list (Entry swarm_Options)) :
  let observed := Provision (spied ext) swarmOptions authOptions engineOptions (p, (h, log)) in
  (fst observed, (fst (snd observed), fst (snd (snd observed))))
  = Provision ext swarmOptions authOptions engineOptions (p, h).
Proof.
  cbv zeta.
  unfold Provision, SetHostname, Package, orReturn, bind, assign, provisioner, onHost, ret.
  cbn [spied SSHCommand makeDockerOptionsDir waitForLock setRemoteAuthOptions ConfigureAuth
         configureSwarm Service].
  unfold spySt, spyHost. cbn [fst snd id].
  destruct (SSHCommand ext _ h) as [[out | e1] h1]; cbn [fst snd]; [ | reflexivity].
  match goal with |- context [makeDockerOptionsDir ext ?s] =>
    destruct (makeDockerOptionsDir ext s) as [[e2|] [p2 h2]] end; cbn [fst snd];
    [reflexivity | ].
  match goal with |- context [waitForLock ext ?c ?s] =>
    destruct (waitForLock ext c s) as [[e3|] h3] end; cbn [fst snd]; [reflexivity | ].
  match goal with |- context [setRemoteAuthOptions ext ?s] =>
    destruct (setRemoteAuthOptions ext s) as [remote [p4 h4]] end; cbn [fst snd].
  match goal with |- context [ConfigureAuth ext ?s] =>
    destruct (ConfigureAuth ext s) as [[e5|] [p5 h5]] end; cbn [fst snd]; [reflexivity | ].
  match goal with |- context [configureSwarm ext ?a ?b ?s] =>
    destruct (configureSwarm ext a b s) as [[e6|] [p6 h6]] end; cbn [fst snd];
    [reflexivity | ].
  match goal with |- context [Service ext ?a ?b ?s] =>
    destruct (Service ext a b s) as [e7 [p7 h7]] end; reflexivity.
Qed.
